(** * Host user management (lib/srv/usermgmt.go)

    A shallow embedding of the identity lifecycle manager of
    [lib/srv/usermgmt.go] and of its unix backend
    ([unixMgmt], the second half of the same source file), together with
    the properties of group bootstrap, account creation, safe deletion and
    bulk teardown.

    The manager talks to the host through the [UserManagement] interface.
    The host is an explicit world state [W]: the lookup methods read it,
    the three mutating methods ([groupAdd], [userAdd], [userDel]) return a
    new world next to their exit code and error.  Every call made through
    the interface, and every log line, is recorded in order, so that
    "never calls the delete primitive" is a statement about that record. *)

From Stdlib Require Import String List ZArith Bool DecimalString.
Import ListNotations.

Local Open Scope string_scope.
Local Open Scope list_scope.

(** ** Data of [os/user] *)

(** [user.User]; the Go fields [Gid] and [Name] are spelled [UserGid] and
    [FullName] here, [Gid] and [Name] being the fields of [Group]. *)
Record User : Type := mkUser {
  Uid : string;
  UserGid : string;
  Username : string;
  FullName : string;
  HomeDir : string
}.

(** [user.Group] *)
Record Group : Type := mkGroup {
  Gid : string;
  Name : string
}.

(** ** Errors

    A Go [error] value is represented by the expression that built it; the
    [nil] error is [None] of [option error].  [UnknownUserError] and
    [UnknownGroupError] are the string types of [os/user]; [ErrNotFound]
    and [ExitError] are what [os/exec] reports for a missing binary and for
    a command that exits with a non-zero status; the [Trace*] constructors
    stand for the results of the functions of the same name of the
    [gravitational/trace] library. *)
#[warnings="-register-all"]
Inductive error : Type :=
| UnknownUserError (name : string)
| UnknownGroupError (name : string)
| ErrNotFound (file : string)
| ExitError (code : Z)
| OtherError (msg : string)
| TraceNotFound (msg : string)
| TraceAlreadyExists (msg : string)
| TraceWrap (err : error) (args : list string)
| TraceWrapWithMessage (err : error) (message : string)
| TraceAggregate (errs : list error).

(** [err != nil] *)
Definition notNil {A : Type} (p : option A) : bool :=
  match p with
  | Some _ => true
  | None => false
  end.

(** [err != user.UnknownGroupError(group)]: an interface value equals a
    value of the string type [UnknownGroupError] exactly when it holds that
    type and the same string; nil differs from it. *)
Definition neq_UnknownGroupError (err : option error) (group : string) : bool :=
  match err with
  | Some (UnknownGroupError name) => negb (String.eqb name group)
  | _ => true
  end.

(** [err != user.UnknownUserError(username)] *)
Definition neq_UnknownUserError (err : option error) (username : string) : bool :=
  match err with
  | Some (UnknownUserError name) => negb (String.eqb name username)
  | _ => true
  end.

(** Modelled from the spec: [trace.Wrap] belongs to the library
    [gravitational/trace], which is not part of the sources; it maps the
    nil error to nil and any other error to a wrapped error. *)
Definition Wrap (err : option error) : option error :=
  match err with
  | None => None
  | Some e => Some (TraceWrap e [])
  end.

(** The filter of [trace.NewAggregate]: the non-nil entries, in order. *)
Fixpoint nonNils (errs : list (option error)) : list error :=
  match errs with
  | [] => []
  | None :: rest => nonNils rest
  | Some e :: rest => e :: nonNils rest
  end.

(** Modelled from the spec: [trace.NewAggregate] belongs to the library
    [gravitational/trace]; the aggregate holds the underlying errors that
    were collected and is nil when there is none (spec 4.4 and glossary). *)
Definition NewAggregate (errs : list (option error)) : option error :=
  match nonNils errs with
  | [] => None
  | e :: es => Some (TraceAggregate (e :: es))
  end.

(** ** Constants *)

(** Modelled from the spec: the constant [types.TeleportServiceGroup] is
    declared in [api/types], outside the sources at hand; it is the fixed
    name of the marker group, which the comment in [createTemporaryUser]
    spells teleport-system.  No property below depends on its value. *)
Definition TeleportServiceGroup : string := "teleport-system".

(** man GROUPADD(8), exit codes section *)
Definition groupExistExit : Z := 9.

(** man USERADD(8), exit codes section *)
Definition userExistExit : Z := 9.
Definition userLoggedInExit : Z := 8.

(** ** The backend interface and the record of calls *)

(** [type UserManagement interface]: the lookups read the world, the
    mutating methods return the exit code, the error and the new world. *)
Record UserManagement (W : Type) : Type := mkUserManagement {
  GetAllUsers : W -> list string * option error;
  Lookup : string -> W -> option User * option error;
  LookupGroup : string -> W -> option Group * option error;
  groupAdd : string -> W -> (Z * option error) * W;
  userAdd : string -> list string -> W -> (Z * option error) * W;
  userDel : string -> W -> (Z * option error) * W
}.

Arguments GetAllUsers {W} _ _.
Arguments Lookup {W} _ _ _.
Arguments LookupGroup {W} _ _ _.
Arguments groupAdd {W} _ _ _.
Arguments userAdd {W} _ _ _ _.
Arguments userDel {W} _ _ _.

(** [type userCloser struct] *)
Record userCloser (W : Type) : Type := mkUserCloser {
  mgmt : UserManagement W;
  user : string
}.

Arguments mkUserCloser {W} _ _.
Arguments mgmt {W} _.
Arguments user {W} _.

(** What the manager does to the outside, in order. *)
Inductive Event : Type :=
| CallGetAllUsers
| CallLookup (username : string)
| CallLookupGroup (name : string)
| CallGroupIds (u : User)
| CallGroupAdd (name : string)
| CallUserAdd (username : string) (groups : list string)
| CallUserDel (username : string)
| LogWarnf (username : string)
| LogDebugf (username : string).

Definition is_CallUserDel (e : Event) : bool :=
  match e with CallUserDel _ => true | _ => false end.

Definition is_CallGroupAdd (e : Event) : bool :=
  match e with CallGroupAdd _ => true | _ => false end.

Definition is_CallUserAdd (e : Event) : bool :=
  match e with CallUserAdd _ _ => true | _ => false end.

(** The calls that change the host. *)
Definition mutating (e : Event) : bool :=
  is_CallGroupAdd e || is_CallUserAdd e || is_CallUserDel e.

(** A Go call either returns or panics (a nil pointer is dereferenced). *)
Inductive outcome (A : Type) : Type :=
| Returned (a : A)
| Panicked.

Arguments Returned {A} a.
Arguments Panicked {A}.

(** ** The manager *)

Section Manager.

Variable W : Type.

(** The method [GroupIds] of [user.User] in [os/user]: the group ids of
    an account, read from the host. *)
Variable GroupIds : User -> W -> list string * option error.

(** The outcome of running a piece of the manager from a world. *)
Record run (A : Type) : Type := Run {
  result : outcome A;
  world : W;
  calls : list Event
}.

Arguments Run {A} _ _ _.
Arguments result {A} _.
Arguments world {A} _.
Arguments calls {A} _.

Definition M (A : Type) : Type := W -> run A.

Definition ret {A : Type} (a : A) : M A :=
  fun w => Run (Returned a) w [].

Definition bind {A B : Type} (m : M A) (k : A -> M B) : M B :=
  fun w =>
    let r := m w in
    match result r with
    | Returned a =>
        let r' := k a (world r) in
        Run (result r') (world r') (calls r ++ calls r')
    | Panicked => Run Panicked (world r) (calls r)
    end.

Notation "x <- m ;; k" := (bind m (fun x => k))
  (at level 61, m at next level, right associativity).
Notation "' pat <- m ;; k" := (bind m (fun x => match x with pat => k end))
  (at level 61, pat pattern, m at next level, right associativity).

Definition panic {A : Type} : M A :=
  fun w => Run Panicked w [].

(** Access through a pointer: a nil pointer panics. *)
Definition deref {A : Type} (p : option A) : M A :=
  match p with
  | Some a => ret a
  | None => panic
  end.

Definition emit (e : Event) : M unit :=
  fun w => Run (Returned tt) w [e].

Definition read {A : Type} (e : Event) (f : W -> A) : M A :=
  fun w => Run (Returned (f w)) w [e].

Definition write {A : Type} (e : Event) (f : W -> A * W) : M A :=
  fun w => Run (Returned (fst (f w))) (snd (f w)) [e].

Section WithBackend.

Variable m : UserManagement W.

Definition callGetAllUsers := read CallGetAllUsers (GetAllUsers m).
Definition callLookup (username : string) :=
  read (CallLookup username) (Lookup m username).
Definition callLookupGroup (name : string) :=
  read (CallLookupGroup name) (LookupGroup m name).
Definition callGroupIds (u : User) := read (CallGroupIds u) (GroupIds u).
Definition callGroupAdd (name : string) :=
  write (CallGroupAdd name) (groupAdd m name).
Definition callUserAdd (username : string) (groups : list string) :=
  write (CallUserAdd username groups) (userAdd m username groups).
Definition callUserDel (username : string) :=
  write (CallUserDel username) (userDel m username).

(** [func createGroupIfNotExist(mgmt UserManagement, group string) error] *)
Definition createGroupIfNotExist (group : string) : M (option error) :=
  '(_, err) <- callLookupGroup group ;;
  if notNil err && neq_UnknownGroupError err group then ret (Wrap err)
  else
    '(code, err) <- callGroupAdd group ;;
    if Z.eqb code groupExistExit then ret None
    else ret (Wrap err).

(** The loop [for _, id := range ids] of [deleteUserInGroup], with what
    follows it. *)
Fixpoint deleteUserInGroup_range (username gid : string)
    (ids : list string) : M (option error) :=
  match ids with
  | [] =>
      _ <- emit (LogDebugf username) ;;
      ret None
  | id :: rest =>
      if String.eqb id gid then
        '(code, err) <- callUserDel username ;;
        if Z.eqb code userLoggedInExit then
          _ <- emit (LogWarnf username) ;;
          ret None
        else ret (Wrap err)
      else deleteUserInGroup_range username gid rest
  end.

(** [func deleteUserInGroup(mgmt UserManagement, username string, gid string) error] *)
Definition deleteUserInGroup (username gid : string) : M (option error) :=
  '(tempUser, err) <- callLookup username ;;
  match err with
  | Some _ => ret (Wrap err)
  | None =>
      u <- deref tempUser ;;
      '(ids, err) <- callGroupIds u ;;
      match err with
      | Some _ => ret (Wrap err)
      | None => deleteUserInGroup_range username gid ids
      end
  end.

(** The loop [for _, u := range users] of
    [DeleteAllTeleportSystemUsers]; [teleportGroup.Gid] is read at each
    turn. *)
Fixpoint DeleteAllTeleportSystemUsers_range (teleportGroup : option Group)
    (users : list string) (errs : list (option error))
    : M (list (option error)) :=
  match users with
  | [] => ret errs
  | u :: rest =>
      g <- deref teleportGroup ;;
      e <- deleteUserInGroup u (Gid g) ;;
      DeleteAllTeleportSystemUsers_range teleportGroup rest (errs ++ [e])
  end.

(** [func DeleteAllTeleportSystemUsers(mgmt UserManagement) error] *)
Definition DeleteAllTeleportSystemUsers : M (option error) :=
  '(users, err) <- callGetAllUsers ;;
  match err with
  | Some _ => ret err
  | None =>
      '(teleportGroup, err) <- callLookupGroup TeleportServiceGroup ;;
      match err with
      | Some _ => ret (Wrap err)
      | None =>
          errs <- DeleteAllTeleportSystemUsers_range teleportGroup users [] ;;
          ret (NewAggregate errs)
      end
  end.

(** [func (u *userCloser) Close() error], for a closer over this
    backend. *)
Definition Close_on (username : string) : M (option error) :=
  '(teleportGroup, err) <- callLookupGroup TeleportServiceGroup ;;
  match err with
  | Some _ => ret (Wrap err)
  | None =>
      g <- deref teleportGroup ;;
      e <- deleteUserInGroup username (Gid g) ;;
      ret (Wrap e)
  end.

(** The loop [for _, group := range append(groups, ...)] of
    [createTemporaryUser]. *)
Fixpoint createTemporaryUser_range (groups : list string)
    (errs : list (option error)) (groupsCreated : list string)
    : M (list (option error) * list string) :=
  match groups with
  | [] => ret (errs, groupsCreated)
  | group :: rest =>
      err <- createGroupIfNotExist group ;;
      match err with
      | Some _ => createTemporaryUser_range rest (errs ++ [err]) groupsCreated
      | None => createTemporaryUser_range rest errs (groupsCreated ++ [group])
      end
  end.

(** What [createTemporaryUser] does once the account is known not to
    exist: the groups, then the account. *)
Definition createTemporaryUser_create (username : string)
    (groups : list string)
    : M (option (userCloser W) * list string * option error) :=
  '(errs, groupsCreated) <-
    createTemporaryUser_range (groups ++ [TeleportServiceGroup]) [] [] ;;
  match NewAggregate errs with
  | Some e =>
      ret (None, groupsCreated,
           Some (TraceWrapWithMessage e "error while creating groups"))
  | None =>
      '(code, err) <- callUserAdd username (groups ++ [TeleportServiceGroup]) ;;
      match err with
      | Some e =>
          if negb (Z.eqb code userExistExit) then
            ret (None, groupsCreated,
                 Some (TraceWrapWithMessage e "error while creating user"))
          else ret (Some (mkUserCloser m username), groupsCreated, None)
      | None => ret (Some (mkUserCloser m username), groupsCreated, None)
      end
  end.

(** [func createTemporaryUser(mgmt UserManagement, username string, groups []string)
      (closer *userCloser, groupsCreated []string, err error)] *)
Definition createTemporaryUser (username : string) (groups : list string)
    : M (option (userCloser W) * list string * option error) :=
  '(tempUser, err) <- callLookup username ;;
  if notNil err && neq_UnknownUserError err username then
    ret (None, [], Wrap err)
  else if notNil tempUser then
    ret (Some (mkUserCloser m username), [],
         Some (TraceAlreadyExists "User already exists"))
  else createTemporaryUser_create username groups.

End WithBackend.

(** [func (u *userCloser) Close() error] *)
Definition Close (u : userCloser W) : M (option error) :=
  Close_on (mgmt u) (user u).

End Manager.

Arguments Run {W A} _ _ _.
Arguments result {W A} _.
Arguments world {W A} _.
Arguments calls {W A} _.
Arguments ret {W A} a _.
Arguments bind {W A B} m k _.
Arguments panic {W A} _.
Arguments deref {W A} p _.
Arguments createGroupIfNotExist {W} m group _.
Arguments deleteUserInGroup_range {W} m username gid ids _.
Arguments deleteUserInGroup {W} GroupIds m username gid _.
Arguments DeleteAllTeleportSystemUsers_range {W} GroupIds m teleportGroup users errs _.
Arguments DeleteAllTeleportSystemUsers {W} GroupIds m _.
Arguments Close_on {W} GroupIds m username _.
Arguments Close {W} GroupIds u _.
Arguments createTemporaryUser_range {W} m groups errs groupsCreated _.
Arguments createTemporaryUser_create {W} m username groups _.
Arguments createTemporaryUser {W} m username groups _.

(** No event of the record is a call of [userDel]. *)
Definition no_userDel (t : list Event) : Prop :=
  existsb is_CallUserDel t = false.

(** No event of the record is a call of [groupAdd]. *)
Definition no_groupAdd (t : list Event) : Prop :=
  existsb is_CallGroupAdd t = false.

(** No event of the record is a call of [userAdd]. *)
Definition no_userAdd (t : list Event) : Prop :=
  existsb is_CallUserAdd t = false.

(** No event of the record changes the host. *)
Definition no_mutation (t : list Event) : Prop :=
  existsb mutating t = false.

(** ** The unix backend

    [unixMgmt] of the source hands every method to the operating system:
    [user.Lookup], [user.LookupGroup], getpwent(3) and the commands
    groupadd(8), useradd(8) and userdel(8).  The host below is the part of
    the operating system these read and write; the three commands follow
    the exit codes sections of their manual pages, which the source cites
    for its constants. *)

Module Unix.

Record Host : Type := mkHost {
  PATH : list string;
  passwd : list User;
  etc_group : list (Group * list string);
  logged_in : list string;
  stuck_homes : list string;
  next_id : nat
}.

Definition id_string (n : nat) : string :=
  NilEmpty.string_of_uint (Nat.to_uint n).

Definition mem (s : string) (l : list string) : bool :=
  existsb (String.eqb s) l.

(** [user.Lookup] *)
Definition user_Lookup (username : string) (h : Host)
    : option User * option error :=
  match find (fun u => String.eqb (Username u) username) (passwd h) with
  | Some u => (Some u, None)
  | None => (None, Some (UnknownUserError username))
  end.

(** [user.LookupGroup] *)
Definition user_LookupGroup (name : string) (h : Host)
    : option Group * option error :=
  match find (fun g => String.eqb (Name (fst g)) name) (etc_group h) with
  | Some g => (Some (fst g), None)
  | None => (None, Some (UnknownGroupError name))
  end.

(** The method [GroupIds] of [user.User]: the primary group id, then the
    ids of the groups that list the account as a member. *)
Definition GroupIds (u : User) (h : Host) : list string * option error :=
  (UserGid u
     :: map (fun g => Gid (fst g))
          (filter (fun g => mem (Username u) (snd g)) (etc_group h)),
   None).

(** [exec.LookPath] *)
Definition LookPath (file : string) (h : Host) : option error :=
  if mem file (PATH h) then None else Some (ErrNotFound file).

(** What [cmd.Run] and [cmd.ProcessState.ExitCode] give for a command
    that ran and left with the given status. *)
Definition exited (code : Z) (h : Host) : (Z * option error) * Host :=
  (code, if Z.eqb code 0 then None else Some (ExitError code), h).

Definition group_exists (name : string) (h : Host) : bool :=
  existsb (fun g => String.eqb (Name (fst g)) name) (etc_group h).

Definition user_exists (username : string) (h : Host) : bool :=
  existsb (fun u => String.eqb (Username u) username) (passwd h).

(** groupadd(8): status 3 when the name is not a valid group name (the
    empty name here), status 9 when the group name is in use. *)
Definition groupadd (name : string) (h : Host) : (Z * option error) * Host :=
  if String.eqb name "" then exited 3 h
  else if group_exists name h then exited 9 h
  else
    exited 0
      (mkHost (PATH h) (passwd h)
         (etc_group h ++ [(mkGroup (id_string (next_id h)) name, [])])
         (logged_in h) (stuck_homes h) (S (next_id h))).

(** useradd(8) with the list of supplementary groups: status 9 when the
    name is in use, status 6 when a listed group does not exist. *)
Definition useradd (username : string) (groups : list string) (h : Host)
    : (Z * option error) * Host :=
  if user_exists username h then exited 9 h
  else if negb (forallb (fun g => group_exists g h) groups) then exited 6 h
  else
    exited 0
      (mkHost (PATH h)
         (passwd h ++ [mkUser (id_string (next_id h)) (id_string (next_id h))
                         username "" ("/home/" ++ username)])
         (map (fun g => if mem (Name (fst g)) groups
                        then (fst g, snd g ++ [username]) else g)
            (etc_group h))
         (logged_in h) (stuck_homes h) (S (next_id h))).

(** userdel(8) with --remove: status 6 when the account does not exist,
    status 8 when it is logged in; otherwise the account leaves the
    password file and the member lists, and the status is 12 when its
    home directory cannot be removed. *)
Definition userdel (username : string) (h : Host)
    : (Z * option error) * Host :=
  if negb (user_exists username h) then exited 6 h
  else if mem username (logged_in h) then exited 8 h
  else
    exited (if mem username (stuck_homes h) then 12 else 0)
      (mkHost (PATH h)
         (filter (fun u => negb (String.eqb (Username u) username)) (passwd h))
         (map (fun g => (fst g,
                         filter (fun n => negb (String.eqb n username)) (snd g)))
            (etc_group h))
         (logged_in h) (stuck_homes h) (next_id h)).

(** Method [GetAllUsers() ([]string, error)] of [unixMgmt]. *)
Definition unix_GetAllUsers (h : Host) : list string * option error :=
  match map Username (passwd h) with
  | [] => ([], Some (TraceNotFound "failed to find any /etc/passwd entries"))
  | names => (names, None)
  end.

(** Method [groupAdd(groupname string) (exitCode int, err error)] of
    [unixMgmt]. *)
Definition unix_groupAdd (groupname : string) (h : Host)
    : (Z * option error) * Host :=
  match LookPath "groupadd" h with
  | Some err => ((-1)%Z, Some (TraceWrap err ["cant find groupadd binary"]), h)
  | None => groupadd groupname h
  end.

(** Method [userAdd(username string, groups []string) (exitCode int, err error)]
    of [unixMgmt]. *)
Definition unix_userAdd (username : string) (groups : list string) (h : Host)
    : (Z * option error) * Host :=
  match LookPath "useradd" h with
  | Some err => ((-1)%Z, Some (TraceWrap err ["cant find useradd binary"]), h)
  | None => useradd username groups h
  end.

(** Method [userDel(username string) (exitCode int, err error)] of
    [unixMgmt]. *)
Definition unix_userDel (username : string) (h : Host)
    : (Z * option error) * Host :=
  match LookPath "userdel" h with
  | Some err => ((-1)%Z, Some (TraceWrap err ["cant find userdel binary"]), h)
  | None => userdel username h
  end.

(** [type unixMgmt struct{}] with its methods. *)
Definition unixMgmt : UserManagement Host :=
  mkUserManagement Host unix_GetAllUsers user_Lookup user_LookupGroup
    unix_groupAdd unix_userAdd unix_userDel.

(** A backend whose account lookup misses every account, as when the
    account appears between the lookup and useradd(8). *)
Definition racingMgmt : UserManagement Host :=
  mkUserManagement Host unix_GetAllUsers
    (fun username _ => (None, Some (UnknownUserError username)))
    user_LookupGroup unix_groupAdd unix_userAdd unix_userDel.

(** The group is in the group file and groupadd(8) is installed. *)
Definition present (name : string) (h : Host) : Prop :=
  mem "groupadd" (PATH h) = true /\ group_exists name h = true.

Definition all_commands : list string := ["groupadd"; "useradd"; "userdel"].

Definition root : User := mkUser "0" "0" "root" "root" "/root".
Definition alice : User := mkUser "1000" "1000" "alice" "Alice" "/home/alice".

(** A host with the accounts root and alice, alice in staff, and no
    marker group. *)
Definition fresh_host : Host :=
  mkHost all_commands [root; alice]
    [(mkGroup "0" "root", []); (mkGroup "50" "staff", ["alice"])]
    [] [] 2000.

(** The same host without the commands installed. *)
Definition bare_host : Host :=
  mkHost [] [root; alice]
    [(mkGroup "0" "root", []); (mkGroup "50" "staff", ["alice"])]
    [] [] 2000.

Definition svc (n : string) (id : string) : User :=
  mkUser id id n "" ("/home/" ++ n).

(** A host with the marker group and three managed accounts, some of
    them logged in, some with a home directory that cannot be removed. *)
Definition managed_host (sessions stuck : list string) : Host :=
  mkHost all_commands [svc "svc1" "2001"; svc "svc2" "2002"; svc "svc3" "2003"]
    [(mkGroup "0" "root", []);
     (mkGroup "2000" TeleportServiceGroup, ["svc1"; "svc2"; "svc3"])]
    sessions stuck 2004.

End Unix.

(** ** Runs of the per-item policies, one after the other *)

(** [sweep GroupIds m gid users w errs w' t]: running [deleteUserInGroup]
    on each account of [users] in turn from [w], every run returning,
    gives the errors [errs] (one per account, nil included), the host [w']
    and the calls [t]. *)
Inductive sweep {W : Type} (GroupIds : User -> W -> list string * option error)
    (m : UserManagement W) (gid : string)
    : list string -> W -> list (option error) -> W -> list Event -> Prop :=
| sweep_nil (w : W) : sweep GroupIds m gid [] w [] w []
| sweep_cons (u : string) (users : list string) (w w1 w2 : W)
    (e : option error) (errs : list (option error)) (t1 t2 : list Event) :
    deleteUserInGroup GroupIds m u gid w = Run (Returned e) w1 t1 ->
    sweep GroupIds m gid users w1 errs w2 t2 ->
    sweep GroupIds m gid (u :: users) w (e :: errs) w2 (t1 ++ t2).

(** [bootstraps m groups w errs w' t]: running [createGroupIfNotExist] on
    each group of [groups] in turn from [w] gives the errors [errs] (one
    per group, nil included), the host [w'] and the calls [t]. *)
Inductive bootstraps {W : Type} (m : UserManagement W)
    : list string -> W -> list (option error) -> W -> list Event -> Prop :=
| bootstraps_nil (w : W) : bootstraps m [] w [] w []
| bootstraps_cons (group : string) (groups : list string) (w w1 w2 : W)
    (e : option error) (errs : list (option error)) (t1 t2 : list Event) :
    createGroupIfNotExist m group w = Run (Returned e) w1 t1 ->
    bootstraps m groups w1 errs w2 t2 ->
    bootstraps m (group :: groups) w (e :: errs) w2 (t1 ++ t2).

(** The groups whose bootstrap returned nil, in order. *)
Fixpoint succeeded (groups : list string) (errs : list (option error))
    : list string :=
  match groups, errs with
  | group :: groups', None :: errs' => group :: succeeded groups' errs'
  | _ :: groups', Some _ :: errs' => succeeded groups' errs'
  | _, _ => []
  end.

(** A backend whose [Lookup] gives an account or an error, as
    [user.Lookup] does. *)
Definition Lookup_answers {W : Type} (m : UserManagement W) : Prop :=
  forall (username : string) (w : W), Lookup m username w <> (None, None).

(** ** Two readings that the code does not have *)

(** [createGroupIfNotExist] would make no [groupAdd] call when the lookup
    finds the group. *)
Definition groupAdd_skipped_when_group_found : Prop :=
  forall (W : Type) (m : UserManagement W) (group : string) (w : W) (g : Group),
    LookupGroup m group w = (Some g, None) ->
    no_groupAdd (calls (createGroupIfNotExist m group w)).

(** The second of two calls of [createGroupIfNotExist] in sequence for the
    same name would return nil on every backend. *)
Definition second_bootstrap_never_fails : Prop :=
  forall (W : Type) (m : UserManagement W) (group : string) (w : W),
    result (createGroupIfNotExist m group
              (world (createGroupIfNotExist m group w)))
    = Returned None.

(** ** The methods of [unixMgmt] as the source writes them

    The operating system is what the methods call: [user.Lookup] and
    [user.LookupGroup] of [os/user], the enumeration of getpwent(3),
    [exec.LookPath], and the run of a command, which gives the exit code of
    [cmd.ProcessState.ExitCode] and the error of [cmd.Run] and may change
    the host. *)

Section UnixMgmt.

Variable W : Type.
Variable os_user_Lookup : string -> W -> option User * option error.
Variable os_user_LookupGroup : string -> W -> option Group * option error.
Variable os_getpwent_names : W -> list string.
Variable os_exec_LookPath : string -> W -> string * option error.
Variable os_exec_Run : string -> list string -> W -> (Z * option error) * W.

(** Method [GetAllUsers() ([]string, error)] of [unixMgmt]. *)
Definition unixMgmt_GetAllUsers (w : W) : list string * option error :=
  let names := os_getpwent_names w in
  if Nat.eqb (length names) 0
  then ([], Some (TraceNotFound "failed to find any /etc/passwd entries"))
  else (names, None).

(** Method [groupAdd(groupname string) (exitCode int, err error)]. *)
Definition unixMgmt_groupAdd (groupname : string) (w : W)
    : (Z * option error) * W :=
  let '(groupaddBin, err) := os_exec_LookPath "groupadd" w in
  match err with
  | Some e => ((-1)%Z, Some (TraceWrap e ["cant find groupadd binary"]), w)
  | None => os_exec_Run groupaddBin [groupname] w
  end.

(** The argument vector of [userAdd]. *)
Definition unixMgmt_userAdd_args (username : string) (groups : list string)
    : list string :=
  let args := ["--create-home"; username] in
  if negb (Nat.eqb (length groups) 0)
  then args ++ ["--groups"; String.concat "," groups]
  else args.

(** Method [userAdd(username string, groups []string) (exitCode int, err error)]. *)
Definition unixMgmt_userAdd (username : string) (groups : list string) (w : W)
    : (Z * option error) * W :=
  let '(useraddBin, err) := os_exec_LookPath "useradd" w in
  match err with
  | Some e => ((-1)%Z, Some (TraceWrap e ["cant find useradd binary"]), w)
  | None => os_exec_Run useraddBin (unixMgmt_userAdd_args username groups) w
  end.

(** The argument vector of [addUserToGroups]. *)
Definition unixMgmt_addUserToGroups_args (username : string)
    (groups : list string) : list string :=
  (["-aG"] ++ groups) ++ [username].

(** Method [addUserToGroups(username string, groups []string) (exitCode int, err error)]. *)
Definition unixMgmt_addUserToGroups (username : string) (groups : list string)
    (w : W) : (Z * option error) * W :=
  let '(usermodBin, err) := os_exec_LookPath "usermod" w in
  match err with
  | Some e => ((-1)%Z, Some (TraceWrap e ["cant find usermod binary"]), w)
  | None =>
      os_exec_Run usermodBin (unixMgmt_addUserToGroups_args username groups) w
  end.

(** Method [userDel(username string) (exitCode int, err error)]. *)
Definition unixMgmt_userDel (username : string) (w : W)
    : (Z * option error) * W :=
  let '(userdelBin, err) := os_exec_LookPath "userdel" w in
  match err with
  | Some e => ((-1)%Z, Some (TraceWrap e ["cant find userdel binary"]), w)
  | None => os_exec_Run userdelBin ["--remove"; username] w
  end.

(** [unixMgmt] as a [UserManagement]: [Lookup] and [LookupGroup] are those
    of [os/user]. *)
Definition unixMgmt_methods : UserManagement W :=
  mkUserManagement W unixMgmt_GetAllUsers os_user_Lookup os_user_LookupGroup
    unixMgmt_groupAdd unixMgmt_userAdd unixMgmt_userDel.

End UnixMgmt.

Arguments unixMgmt_GetAllUsers {W} os_getpwent_names w.
Arguments unixMgmt_groupAdd {W} os_exec_LookPath os_exec_Run groupname w.
Arguments unixMgmt_userAdd {W} os_exec_LookPath os_exec_Run username groups w.
Arguments unixMgmt_addUserToGroups {W} os_exec_LookPath os_exec_Run username groups w.
Arguments unixMgmt_userDel {W} os_exec_LookPath os_exec_Run username w.
Arguments unixMgmt_methods {W} os_user_Lookup os_user_LookupGroup
  os_getpwent_names os_exec_LookPath os_exec_Run.

(** A small operating system for examples: the lookups of the host of
    [Unix], commands found under /usr/sbin when installed, and a run that
    leaves with the given status and changes nothing. *)
Module StubOS.

Definition LookPath (file : string) (h : Unix.Host) : string * option error :=
  match Unix.LookPath file h with
  | Some e => ("", Some e)
  | None => (("/usr/sbin/" ++ file)%string, None)
  end.

Definition Run (status : Z) (bin : string) (args : list string)
    (h : Unix.Host) : (Z * option error) * Unix.Host :=
  Unix.exited status h.

Definition names (h : Unix.Host) : list string :=
  map Username (Unix.passwd h).

Definition methods (status : Z) : UserManagement Unix.Host :=
  unixMgmt_methods Unix.user_Lookup Unix.user_LookupGroup names LookPath
    (Run status).

(** A host whose password file has no entry. *)
Definition empty_host : Unix.Host :=
  Unix.mkHost Unix.all_commands [] [] [] [] 0.

(** A backend whose enumeration is empty without error and whose account
    lookup fails with an error of its own. *)
Definition unreadable : UserManagement Unix.Host :=
  mkUserManagement Unix.Host
    (fun _ => ([], None))
    (fun _ _ => (None, Some (OtherError "input/output error")))
    Unix.user_LookupGroup Unix.unix_groupAdd Unix.unix_userAdd
    Unix.unix_userDel.

(** A host with the marker group and nobody in it. *)
Definition unmanaged_host : Unix.Host :=
  Unix.mkHost Unix.all_commands [Unix.root; Unix.alice]
    [(mkGroup "0" "root", []); (mkGroup "50" "staff", ["alice"]);
     (mkGroup "2000" TeleportServiceGroup, [])]
    [] [] 2001.

(** A host with an account of the marker group and the given commands. *)
Definition managed_host_with (commands : list string) : Unix.Host :=
  Unix.mkHost commands [Unix.svc "svc1" "2001"]
    [(mkGroup "2000" TeleportServiceGroup, ["svc1"])]
    [] [] 2002.

End StubOS.

(** ** What a run may call *)

(** The events a sweep over [users] may produce: lookups and log lines,
    and [userDel] for an enumerated account only. *)
Definition sweep_event (users : list string) (e : Event) : Prop :=
  match e with
  | CallUserDel u => In u users
  | CallLookup u => In u users
  | CallGroupAdd _ => False
  | CallUserAdd _ _ => False
  | _ => True
  end.

(** The events the creation of [username] with the groups [all] may
    produce. *)
Definition creation_event (username : string) (all : list string)
    (e : Event) : Prop :=
  match e with
  | CallLookup u => u = username
  | CallLookupGroup g => In g all
  | CallGroupAdd g => In g all
  | CallUserAdd u gs => u = username /\ gs = all
  | _ => False
  end.

(** The number of [userDel] calls of a record. *)
Definition count_userDel (t : list Event) : nat :=
  length (filter is_CallUserDel t).

(** The number of [userAdd] calls of a record. *)
Definition count_userAdd (t : list Event) : nat :=
  length (filter is_CallUserAdd t).

(** ** Running one step after another *)

Section Steps.

Variable W : Type.

Lemma bind_ret {A B : Type} (a : A) (k : A -> M W B) (w : W) :
  bind (ret a) k w = k a w.
Proof.
  unfold bind, ret. simpl. destruct (k a w); reflexivity.
Qed.

Lemma bind_returned {A B : Type} (c : M W A) (k : A -> M W B)
    (w w1 : W) (a : A) (t1 : list Event) :
  c w = Run (Returned a) w1 t1 ->
  bind c k w = Run (result (k a w1)) (world (k a w1)) (t1 ++ calls (k a w1)).
Proof.
  intros H. unfold bind. rewrite H. reflexivity.
Qed.

End Steps.

(** ** Safe single-account deletion *)

Section Deletion.

Variable W : Type.
Variable GroupIds : User -> W -> list string * option error.
Variable m : UserManagement W.

(** When the gid is not among the ids the loop runs to its end: only the
    debug line is written. *)
Lemma deleteUserInGroup_range_absent (username gid : string)
    (ids : list string) (w : W) :
  ~ In gid ids ->
  deleteUserInGroup_range m username gid ids w
  = Run (Returned None) w [LogDebugf username].
Proof.
  induction ids as [|id rest IH]; intros Hnot.
  - reflexivity.
  - simpl. destruct (String.eqb_spec id gid) as [->|Hne].
    + exfalso. apply Hnot. now left.
    + apply IH. intros Hin. apply Hnot. now right.
Qed.

(** When the gid is among the ids the loop calls [userDel] once and then
    returns: nil on the logged-in exit code, the wrapped error otherwise. *)
Lemma deleteUserInGroup_range_present (username gid : string)
    (ids : list string) (w : W) :
  In gid ids ->
  deleteUserInGroup_range m username gid ids w
  = let '(code, err, w') := userDel m username w in
    if Z.eqb code userLoggedInExit
    then Run (Returned None) w' [CallUserDel username; LogWarnf username]
    else Run (Returned (Wrap err)) w' [CallUserDel username].
Proof.
  induction ids as [|id rest IH]; intros Hin.
  - contradiction.
  - simpl. destruct (String.eqb_spec id gid) as [->|Hne].
    + unfold bind, callUserDel, write, emit, ret. simpl.
      destruct (userDel m username w) as [[code err] w']. simpl.
      destruct (Z.eqb code userLoggedInExit); reflexivity.
    + apply IH. destruct Hin as [Heq|Hin]; [congruence|exact Hin].
Qed.

(** The run of [deleteUserInGroup] on an account that resolves. *)
Lemma deleteUserInGroup_resolved (username gid : string) (w : W)
    (tempUser : User) (ids : list string) :
  Lookup m username w = (Some tempUser, None) ->
  GroupIds tempUser w = (ids, None) ->
  deleteUserInGroup GroupIds m username gid w
  = let r := deleteUserInGroup_range m username gid ids w in
    Run (result r) (world r)
        (CallLookup username :: CallGroupIds tempUser :: calls r).
Proof.
  intros HL HG.
  unfold deleteUserInGroup, bind, callLookup, callGroupIds, read, deref, ret.
  simpl. rewrite HL. simpl. rewrite HG. simpl.
  destruct (deleteUserInGroup_range m username gid ids w) as [[a|] w' t];
    reflexivity.
Qed.

(** C1. An account whose group ids do not include the given gid (the
    marker group's) is left alone by [deleteUserInGroup]: it returns nil,
    the host is as it was, and the calls made are the two lookups and the
    debug line, so [userDel] is never called. *)
Theorem deleteUserInGroup_unmanaged_untouched (username gid : string)
    (w : W) (tempUser : User) (ids : list string) :
  Lookup m username w = (Some tempUser, None) ->
  GroupIds tempUser w = (ids, None) ->
  ~ In gid ids ->
  let r := deleteUserInGroup GroupIds m username gid w in
  result r = Returned None /\
  world r = w /\
  calls r = [CallLookup username; CallGroupIds tempUser; LogDebugf username] /\
  no_userDel (calls r) /\
  no_mutation (calls r).
Proof.
  intros HL HG Hnot r. subst r.
  rewrite (deleteUserInGroup_resolved username gid w tempUser ids HL HG).
  rewrite (deleteUserInGroup_range_absent username gid ids w Hnot).
  simpl. repeat split; reflexivity.
Qed.

(** C5. For an account that is in the marker group, when [userDel]
    answers with the logged-in exit code, [deleteUserInGroup] returns nil
    whatever error comes with that code, on every backend.  [userDel] is
    called once and nothing is called after it but the warning: the
    manager removes nothing itself, the host is the one that the refused
    deletion returned, and every account resolves in it as it does there.
    In particular, when the refusal left the host as it was, the account
    resolves afterwards as it did before. *)
Theorem deleteUserInGroup_busy_is_success (username gid : string)
    (w w' : W) (tempUser : User) (ids : list string)
    (err : option error) :
  Lookup m username w = (Some tempUser, None) ->
  GroupIds tempUser w = (ids, None) ->
  In gid ids ->
  userDel m username w = (userLoggedInExit, err, w') ->
  let r := deleteUserInGroup GroupIds m username gid w in
  result r = Returned None /\
  world r = w' /\
  calls r = [CallLookup username; CallGroupIds tempUser;
             CallUserDel username; LogWarnf username] /\
  count_userDel (calls r) = 1 /\
  (forall u, Lookup m u (world r) = Lookup m u w') /\
  (w' = w -> Lookup m username (world r) = (Some tempUser, None)).
Proof.
  intros HL HG Hin HD r. subst r.
  rewrite (deleteUserInGroup_resolved username gid w tempUser ids HL HG).
  rewrite (deleteUserInGroup_range_present username gid ids w Hin).
  rewrite HD. simpl.
  split; [reflexivity|]. split; [reflexivity|]. split; [reflexivity|].
  split; [reflexivity|]. split; [reflexivity|].
  intros ->. exact HL.
Qed.

End Deletion.

(** ** Group bootstrap *)

Section Bootstrap.

Variable W : Type.
Variable m : UserManagement W.

(** The lookup passes the guard of [createGroupIfNotExist] exactly when
    it gives no error or the unknown-group error of that name. *)
Lemma group_guard_passes (err : option error) (group : string) :
  notNil err && neq_UnknownGroupError err group = false <->
  err = None \/ err = Some (UnknownGroupError group).
Proof.
  split.
  - destruct err as [e|]; [|now left]. right.
    destruct e; simpl in H; try discriminate.
    apply negb_false_iff, String.eqb_eq in H. now subst.
  - intros [->| ->]; simpl; [reflexivity|].
    now rewrite String.eqb_refl.
Qed.

(** The run of [createGroupIfNotExist], branch by branch. *)
Lemma createGroupIfNotExist_run (group : string) (w : W) :
  createGroupIfNotExist m group w
  = let err := snd (LookupGroup m group w) in
    if notNil err && neq_UnknownGroupError err group
    then Run (Returned (Wrap err)) w [CallLookupGroup group]
    else
      let '(code, err', w') := groupAdd m group w in
      Run (Returned (if Z.eqb code groupExistExit then None else Wrap err'))
          w' [CallLookupGroup group; CallGroupAdd group].
Proof.
  unfold createGroupIfNotExist, bind, callLookupGroup, callGroupAdd,
    read, write, ret. simpl.
  destruct (LookupGroup m group w) as [og err]. simpl.
  destruct (notNil err && neq_UnknownGroupError err group); [reflexivity|].
  simpl. destruct (groupAdd m group w) as [[code err'] w']. simpl.
  destruct (Z.eqb code groupExistExit); reflexivity.
Qed.

(** [createGroupIfNotExist] always returns, and calls neither [userAdd]
    nor [userDel]. *)
Lemma createGroupIfNotExist_returns (group : string) (w : W) :
  exists e w' t,
    createGroupIfNotExist m group w = Run (Returned e) w' t /\
    no_userAdd t /\ no_userDel t /\ In (CallLookupGroup group) t.
Proof.
  rewrite createGroupIfNotExist_run. simpl.
  destruct (notNil _ && neq_UnknownGroupError _ group).
  - do 3 eexists. split; [reflexivity|].
    unfold no_userAdd, no_userDel. simpl. auto.
  - destruct (groupAdd m group w) as [[code err'] w'].
    do 3 eexists. split; [reflexivity|].
    unfold no_userAdd, no_userDel. simpl. auto.
Qed.

(** C2, as the code has it.  [createGroupIfNotExist] calls [groupAdd]
    exactly when the lookup gives no error or the unknown-group error of
    that name, and then once, right after the lookup: so also when the
    lookup finds the group.  Only a lookup that fails with another error
    keeps it from calling [groupAdd]; that error is returned wrapped and
    the host is as it was. *)
Theorem createGroupIfNotExist_groupAdd_unless_lookup_fails
    (group : string) (w : W) (og : option Group) (err : option error) :
  LookupGroup m group w = (og, err) ->
  let r := createGroupIfNotExist m group w in
  (err = None \/ err = Some (UnknownGroupError group) ->
     calls r = [CallLookupGroup group; CallGroupAdd group]) /\
  (~ (err = None \/ err = Some (UnknownGroupError group)) ->
     calls r = [CallLookupGroup group] /\
     result r = Returned (Wrap err) /\ world r = w).
Proof.
  intros HL r. subst r. rewrite createGroupIfNotExist_run, HL. simpl.
  destruct (notNil err && neq_UnknownGroupError err group) eqn:Hg.
  - split.
    + intros Hok. apply group_guard_passes in Hok. congruence.
    + intros _. simpl. auto.
  - split.
    + intros _. destruct (groupAdd m group w) as [[code err'] w'].
      reflexivity.
    + intros Hno. exfalso. apply Hno. now apply group_guard_passes.
Qed.

(** C6, as the code has it.  First, on every backend: whenever
    [groupAdd] answers with the group-exists exit code,
    [createGroupIfNotExist] returns nil, whatever error comes with that
    code.  Second, on a backend that keeps a group present once [groupAdd]
    has reported success or group-exists for it, that resolves a present
    group, and that answers group-exists when asked to create a present
    group, a call that follows a call that returned nil returns nil.
    Third, on every backend: when [groupAdd] fails with another code and
    an error in the first call and again in the second, each call returns
    the error of its own [groupAdd], wrapped. *)
Theorem createGroupIfNotExist_twice (group : string) :
  (forall w og err e w',
      LookupGroup m group w = (og, err) ->
      err = None \/ err = Some (UnknownGroupError group) ->
      groupAdd m group w = (groupExistExit, e, w') ->
      result (createGroupIfNotExist m group w) = Returned None /\
      world (createGroupIfNotExist m group w) = w') /\
  (forall present : W -> Prop,
      (forall w code e w',
          groupAdd m group w = (code, e, w') ->
          code = groupExistExit \/ e = None -> present w') ->
      (forall w, present w ->
         exists g, LookupGroup m group w = (Some g, None)) ->
      (forall w, present w ->
         exists e w', groupAdd m group w = (groupExistExit, e, w')) ->
      forall w,
        result (createGroupIfNotExist m group w) = Returned None ->
        result (createGroupIfNotExist m group
                  (world (createGroupIfNotExist m group w)))
        = Returned None) /\
  (forall w w1 w2 og og' err err' code code' e e',
      LookupGroup m group w = (og, err) ->
      err = None \/ err = Some (UnknownGroupError group) ->
      groupAdd m group w = (code, Some e, w1) ->
      code <> groupExistExit ->
      LookupGroup m group w1 = (og', err') ->
      err' = None \/ err' = Some (UnknownGroupError group) ->
      groupAdd m group w1 = (code', Some e', w2) ->
      code' <> groupExistExit ->
      result (createGroupIfNotExist m group w)
      = Returned (Some (TraceWrap e [])) /\
      world (createGroupIfNotExist m group w) = w1 /\
      result (createGroupIfNotExist m group
                (world (createGroupIfNotExist m group w)))
      = Returned (Some (TraceWrap e' []))).
Proof.
  split; [|split].
  - intros w og err e w' HL Hok HA.
    rewrite createGroupIfNotExist_run, HL. simpl.
    apply group_guard_passes in Hok. rewrite Hok, HA. simpl. auto.
  - intros present Hkeep Hresolve Hexists w H1.
    assert (Hp : present (world (createGroupIfNotExist m group w))).
    { revert H1. rewrite createGroupIfNotExist_run. simpl.
      destruct (notNil _ && neq_UnknownGroupError _ group) eqn:Hg.
      - simpl. apply andb_true_iff in Hg as [Hn _].
        destruct (snd (LookupGroup m group w)); simpl in *; discriminate.
      - destruct (groupAdd m group w) as [[code e] w'] eqn:HA. simpl.
        intros Hr. apply (Hkeep w code e w' HA).
        destruct (Z.eqb_spec code groupExistExit) as [->|Hne]; [now left|].
        right. destruct e; simpl in Hr; [discriminate|reflexivity]. }
    set (w1 := world (createGroupIfNotExist m group w)) in *.
    destruct (Hresolve w1 Hp) as [g HL].
    destruct (Hexists w1 Hp) as (e & w2 & HA).
    rewrite createGroupIfNotExist_run, HL, HA. reflexivity.
  - intros w w1 w2 og og' err err' code code' e e'
      HL Hok HA Hne HL' Hok' HA' Hne'.
    apply group_guard_passes in Hok. apply group_guard_passes in Hok'.
    apply Z.eqb_neq in Hne. apply Z.eqb_neq in Hne'.
    assert (H1 : createGroupIfNotExist m group w
                 = Run (Returned (Some (TraceWrap e []))) w1
                       [CallLookupGroup group; CallGroupAdd group]).
    { rewrite createGroupIfNotExist_run, HL. simpl.
      rewrite Hok, HA, Hne. reflexivity. }
    rewrite H1. cbn [result world].
    split; [reflexivity|]. split; [reflexivity|].
    rewrite createGroupIfNotExist_run, HL'. simpl.
    rewrite Hok', HA', Hne'. reflexivity.
Qed.

End Bootstrap.

(** ** Account creation *)

Section Creation.

Variable W : Type.
Variable m : UserManagement W.

(** The lookup passes the first guard of [createTemporaryUser] exactly
    when it gives no error or the unknown-user error of that name. *)
Lemma user_guard_passes (err : option error) (username : string) :
  notNil err && neq_UnknownUserError err username = false <->
  err = None \/ err = Some (UnknownUserError username).
Proof.
  split.
  - destruct err as [e|]; [|now left]. right.
    destruct e; simpl in H; try discriminate.
    apply negb_false_iff, String.eqb_eq in H. now subst.
  - intros [->| ->]; simpl; [reflexivity|].
    now rewrite String.eqb_refl.
Qed.

(** The run of [createTemporaryUser] up to the point where the account is
    known not to exist. *)
Lemma createTemporaryUser_run (username : string) (groups : list string)
    (w : W) :
  createTemporaryUser m username groups w
  = let '(tempUser, err) := Lookup m username w in
    if notNil err && neq_UnknownUserError err username
    then Run (Returned (None, [], Wrap err)) w [CallLookup username]
    else if notNil tempUser
    then Run (Returned (Some (mkUserCloser m username), [],
                        Some (TraceAlreadyExists "User already exists")))
             w [CallLookup username]
    else
      let r := createTemporaryUser_create m username groups w in
      Run (result r) (world r) (CallLookup username :: calls r).
Proof.
  unfold createTemporaryUser, bind, callLookup, read, ret. simpl.
  destruct (Lookup m username w) as [tempUser err]. simpl.
  destruct (notNil err && neq_UnknownUserError err username); [reflexivity|].
  destruct (notNil tempUser); [reflexivity|].
  destruct (createTemporaryUser_create m username groups w) as [[a|] w' t];
    reflexivity.
Qed.

Lemma existsb_app_false {A : Type} (f : A -> bool) (l1 l2 : list A) :
  existsb f l1 = false -> existsb f l2 = false ->
  existsb f (l1 ++ l2) = false.
Proof.
  intros H1 H2. rewrite existsb_app, H1, H2. reflexivity.
Qed.

(** The bootstraps of a list of groups always run to the end. *)
Lemma bootstraps_total (groups : list string) (w : W) :
  exists errs w' t, bootstraps m groups w errs w' t.
Proof.
  revert w. induction groups as [|group rest IH]; intros w.
  - exists [], w, []. constructor.
  - destruct (createGroupIfNotExist_returns W m group w)
      as (e & w1 & t1 & Hrun & _).
    destruct (IH w1) as (errs & w2 & t2 & Hrest).
    exists (e :: errs), w2, (t1 ++ t2). econstructor; eassumption.
Qed.

(** One error per group, a lookup of every group, and no [userAdd]. *)
Lemma bootstraps_facts (groups : list string) (w w' : W)
    (errs : list (option error)) (t : list Event) :
  bootstraps m groups w errs w' t ->
  length errs = length groups /\
  (forall g, In g groups -> In (CallLookupGroup g) t) /\
  no_userAdd t.
Proof.
  induction 1 as [w|group groups w w1 w2 e errs t1 t2 Hrun Hrest IH].
  - repeat split. intros g [].
  - destruct IH as (Hlen & Hall & Hno).
    destruct (createGroupIfNotExist_returns W m group w)
      as (e' & w1' & t1' & Hrun' & Hno1 & _ & Hin1).
    rewrite Hrun in Hrun'. injection Hrun' as _ _ <-.
    split; [simpl; congruence|]. split.
    + intros g [<-|Hg]; apply in_or_app; [now left|right; auto].
    + now apply existsb_app_false.
Qed.

Lemma nonNils_app (l1 l2 : list (option error)) :
  nonNils (l1 ++ l2) = nonNils l1 ++ nonNils l2.
Proof.
  induction l1 as [|[e|] l1 IH]; simpl; [reflexivity| |exact IH].
  now rewrite IH.
Qed.

(** The loop of [createTemporaryUser] collects every error and every
    group that was bootstrapped. *)
Lemma createTemporaryUser_range_spec (groups : list string) (w w' : W)
    (errs : list (option error)) (t : list Event) :
  bootstraps m groups w errs w' t ->
  forall (errs0 : list (option error)) (created0 : list string),
  exists errs1,
    createTemporaryUser_range m groups errs0 created0 w
    = Run (Returned (errs1, created0 ++ succeeded groups errs)) w' t /\
    nonNils errs1 = nonNils errs0 ++ nonNils errs.
Proof.
  induction 1 as [w|group groups w w1 w2 e errs t1 t2 Hrun Hrest IH];
    intros errs0 created0.
  - exists errs0. simpl. now rewrite !app_nil_r.
  - simpl. unfold bind. rewrite Hrun. simpl. destruct e as [e|].
    + destruct (IH (errs0 ++ [Some e]) created0) as (errs1 & Hr & Hn).
      exists errs1. rewrite Hr. simpl. split; [reflexivity|].
      rewrite Hn, nonNils_app, <- app_assoc. reflexivity.
    + destruct (IH errs0 (created0 ++ [group])) as (errs1 & Hr & Hn).
      exists errs1. rewrite Hr. simpl. split; [|exact Hn].
      now rewrite <- app_assoc.
Qed.

(** The groups, then the account. *)
Lemma createTemporaryUser_create_spec (username : string)
    (groups : list string) (w w' : W) (errs : list (option error))
    (t : list Event) :
  bootstraps m (groups ++ [TeleportServiceGroup]) w errs w' t ->
  createTemporaryUser_create m username groups w
  = let all := groups ++ [TeleportServiceGroup] in
    match nonNils errs with
    | e :: es =>
        Run (Returned (None, succeeded all errs,
               Some (TraceWrapWithMessage (TraceAggregate (e :: es))
                       "error while creating groups")))
            w' t
    | [] =>
        let '(code, err, w'') := userAdd m username all w' in
        Run (Returned
               (if negb (Z.eqb code userExistExit) && notNil err
                then (None, succeeded all errs,
                      option_map (fun e => TraceWrapWithMessage e
                                    "error while creating user") err)
                else (Some (mkUserCloser m username), succeeded all errs,
                      None)))
            w'' (t ++ [CallUserAdd username all])
    end.
Proof.
  intros Hb.
  destruct (createTemporaryUser_range_spec _ _ _ _ _ Hb [] [])
    as (errs1 & Hr & Hn).
  unfold createTemporaryUser_create, bind. rewrite Hr. simpl.
  unfold NewAggregate. rewrite Hn. simpl.
  destruct (nonNils errs) as [|e es]; simpl.
  - unfold callUserAdd, write, ret. simpl.
    destruct (userAdd m username (groups ++ [TeleportServiceGroup]) w')
      as [[code err] w'']. simpl.
    destruct err as [e|]; simpl.
    + destruct (Z.eqb code userExistExit); reflexivity.
    + rewrite andb_false_r. reflexivity.
  - now rewrite app_nil_r.
Qed.

Lemma succeeded_all (groups : list string) (errs : list (option error)) :
  length errs = length groups -> nonNils errs = [] ->
  succeeded groups errs = groups.
Proof.
  revert errs. induction groups as [|g groups IH]; intros [|[e|] errs];
    simpl; try discriminate; try reflexivity.
  intros Hlen Hn. f_equal. apply IH; [now injection Hlen|exact Hn].
Qed.

(** C4. When the lookup of the username succeeds, the account is there
    already: [createTemporaryUser] returns a closer, not nil, bound to
    that username and to the backend, together with the AlreadyExists
    error of [trace], which is neither a wrapped lookup error nor one of
    the two creation errors. *)
Theorem createTemporaryUser_existing_account (username : string)
    (groups : list string) (w : W) (tempUser : User) :
  Lookup m username w = (Some tempUser, None) ->
  exists closer,
    result (createTemporaryUser m username groups w)
    = Returned (Some closer, [],
                Some (TraceAlreadyExists "User already exists")) /\
    user closer = username /\
    mgmt closer = m.
Proof.
  intros HL. exists (mkUserCloser m username).
  rewrite createTemporaryUser_run, HL. simpl. auto.
Qed.

(** C9. On that path [createTemporaryUser] calls nothing but the lookup:
    no group is bootstrapped, the marker group included, [userAdd] is not
    called, no group is reported as created, and the host is as it was,
    so that a marker group that did not resolve before does not resolve
    after. *)
Theorem createTemporaryUser_existing_account_frame (username : string)
    (groups : list string) (w : W) (tempUser : User) :
  Lookup m username w = (Some tempUser, None) ->
  let r := createTemporaryUser m username groups w in
  calls r = [CallLookup username] /\
  no_mutation (calls r) /\
  no_groupAdd (calls r) /\
  no_userAdd (calls r) /\
  world r = w /\
  (exists closer err, result r = Returned (closer, [], err)) /\
  LookupGroup m TeleportServiceGroup (world r)
  = LookupGroup m TeleportServiceGroup w.
Proof.
  intros HL r. subst r. rewrite createTemporaryUser_run, HL. simpl.
  repeat split. eauto.
Qed.

(** C7. When the username does not resolve, [createTemporaryUser] runs
    [createGroupIfNotExist] for every requested group and then for the
    marker group, whatever the earlier ones returned: these runs always
    reach the end, one result per group.  When at least one of them
    returned an error, the result is: no closer, the groups whose
    bootstrap returned nil, and the aggregate of all the errors under the
    message of the group step; [userAdd] is not called. *)
Theorem createTemporaryUser_group_errors (username : string)
    (groups : list string) (w : W) (err : option error) :
  Lookup m username w = (None, err) ->
  err = None \/ err = Some (UnknownUserError username) ->
  (exists errs w' t,
      bootstraps m (groups ++ [TeleportServiceGroup]) w errs w' t) /\
  (forall errs w' t,
      bootstraps m (groups ++ [TeleportServiceGroup]) w errs w' t ->
      length errs = length (groups ++ [TeleportServiceGroup]) /\
      (forall g, In g (groups ++ [TeleportServiceGroup]) ->
                 In (CallLookupGroup g) t) /\
      (nonNils errs <> [] ->
       let r := createTemporaryUser m username groups w in
       result r
       = Returned (None, succeeded (groups ++ [TeleportServiceGroup]) errs,
                   Some (TraceWrapWithMessage (TraceAggregate (nonNils errs))
                           "error while creating groups")) /\
       world r = w' /\
       calls r = CallLookup username :: t /\
       no_userAdd (calls r))).
Proof.
  intros HL Hok. split; [apply bootstraps_total|].
  intros errs w' t Hb.
  destruct (bootstraps_facts _ _ _ _ _ Hb) as (Hlen & Hall & Hno).
  split; [exact Hlen|]. split; [exact Hall|].
  intros Hsome r. subst r.
  rewrite createTemporaryUser_run, HL.
  apply user_guard_passes in Hok. rewrite Hok. simpl.
  rewrite (createTemporaryUser_create_spec username groups w w' errs t Hb).
  simpl. destruct (nonNils errs) as [|e es]; [contradiction|].
  simpl. repeat split. exact Hno.
Qed.

(** C8. When the username does not resolve and every bootstrap returned
    nil, [createTemporaryUser] calls [userAdd] with the requested groups
    followed by the marker group.  On the user-exists exit code it
    returns a closer and a nil error, whatever error comes with the
    code; on any other code, an error of [userAdd] makes it return no
    closer and that error under the message of the user step; in both
    cases with the groups of the group step. *)
Theorem createTemporaryUser_userAdd (username : string)
    (groups : list string) (w w1 w2 : W) (err uerr : option error)
    (errs : list (option error)) (t : list Event) (code : Z) :
  Lookup m username w = (None, err) ->
  err = None \/ err = Some (UnknownUserError username) ->
  bootstraps m (groups ++ [TeleportServiceGroup]) w errs w1 t ->
  nonNils errs = [] ->
  userAdd m username (groups ++ [TeleportServiceGroup]) w1
  = (code, uerr, w2) ->
  let r := createTemporaryUser m username groups w in
  let all := groups ++ [TeleportServiceGroup] in
  calls r = CallLookup username :: t ++ [CallUserAdd username all] /\
  world r = w2 /\
  (code = userExistExit ->
   result r = Returned (Some (mkUserCloser m username), all, None)) /\
  (code <> userExistExit -> forall e, uerr = Some e ->
   result r
   = Returned (None, all,
               Some (TraceWrapWithMessage e "error while creating user"))) /\
  (uerr = None ->
   result r = Returned (Some (mkUserCloser m username), all, None)).
Proof.
  intros HL Hok Hb Hnil HA r all. subst r all.
  destruct (bootstraps_facts _ _ _ _ _ Hb) as (Hlen & _ & _).
  rewrite createTemporaryUser_run, HL.
  apply user_guard_passes in Hok. rewrite Hok. simpl.
  rewrite (createTemporaryUser_create_spec username groups w w1 errs t Hb).
  simpl. rewrite Hnil, HA. simpl.
  rewrite (succeeded_all _ _ Hlen Hnil).
  repeat split.
  - intros ->. reflexivity.
  - intros Hne e ->. simpl.
    destruct (Z.eqb_spec code userExistExit); [contradiction|reflexivity].
  - intros ->. now rewrite andb_false_r.
Qed.

End Creation.

(** ** Bulk teardown and the closer *)

Section Teardown.

Variable W : Type.
Variable GroupIds : User -> W -> list string * option error.
Variable m : UserManagement W.

(** The run of [deleteUserInGroup] on an account of the given group. *)
Lemma deleteUserInGroup_managed (username gid : string) (w w' : W)
    (tempUser : User) (ids : list string) (code : Z) (err : option error) :
  Lookup m username w = (Some tempUser, None) ->
  GroupIds tempUser w = (ids, None) ->
  In gid ids ->
  userDel m username w = (code, err, w') ->
  deleteUserInGroup GroupIds m username gid w
  = Run (Returned (if Z.eqb code userLoggedInExit then None else Wrap err)) w'
        (CallLookup username :: CallGroupIds tempUser :: CallUserDel username
           :: (if Z.eqb code userLoggedInExit then [LogWarnf username] else [])).
Proof.
  intros HL HG Hin HD.
  rewrite (deleteUserInGroup_resolved W GroupIds m username gid w tempUser ids HL HG).
  rewrite (deleteUserInGroup_range_present W m username gid ids w Hin), HD.
  destruct (Z.eqb code userLoggedInExit); reflexivity.
Qed.

Lemma deleteUserInGroup_range_returns (username gid : string)
    (ids : list string) (w : W) :
  exists e w' t,
    deleteUserInGroup_range m username gid ids w = Run (Returned e) w' t.
Proof.
  destruct (in_dec string_dec gid ids) as [Hin|Hnot].
  - rewrite (deleteUserInGroup_range_present W m username gid ids w Hin).
    destruct (userDel m username w) as [[code err] w'].
    destruct (Z.eqb code userLoggedInExit); eauto.
  - rewrite (deleteUserInGroup_range_absent W m username gid ids w Hnot).
    eauto.
Qed.

(** On a backend whose [Lookup] gives an account or an error,
    [deleteUserInGroup] returns; its first call is the lookup. *)
Lemma deleteUserInGroup_returns (username gid : string) (w : W) :
  Lookup_answers m ->
  exists e w' t,
    deleteUserInGroup GroupIds m username gid w
    = Run (Returned e) w' (CallLookup username :: t).
Proof.
  intros Hans. specialize (Hans username w).
  unfold deleteUserInGroup, bind, callLookup, callGroupIds, read, deref,
    ret, panic. simpl.
  destruct (Lookup m username w) as [[u|] [e|]]; simpl; eauto.
  - destruct (GroupIds u w) as [ids [e|]]; simpl; eauto.
    destruct (deleteUserInGroup_range_returns username gid ids w)
      as (e & w' & t & ->). simpl. eauto.
  - congruence.
Qed.

Lemma sweep_total (gid : string) (users : list string) (w : W) :
  Lookup_answers m ->
  exists errs w' t,
    sweep GroupIds m gid users w errs w' t /\
    length errs = length users /\
    (forall u, In u users -> In (CallLookup u) t).
Proof.
  intros Hans. revert w.
  induction users as [|u rest IH]; intros w.
  - exists [], w, []. split; [constructor|]. split; [reflexivity|].
    intros u [].
  - destruct (deleteUserInGroup_returns u gid w Hans) as (e & w1 & t1 & Hrun).
    destruct (IH w1) as (errs & w2 & t2 & Hrest & Hlen & Hall).
    exists (e :: errs), w2, ((CallLookup u :: t1) ++ t2).
    split; [econstructor; eassumption|].
    split; [simpl; congruence|].
    intros u' [<-|Hin]; [now left|].
    apply in_or_app. right. auto.
Qed.

(** The loop of [DeleteAllTeleportSystemUsers] appends one entry per
    account to [errs] and goes on whatever the entry is. *)
Lemma DeleteAllTeleportSystemUsers_range_spec (g : Group)
    (users : list string) (w w' : W) (errs : list (option error))
    (t : list Event) :
  sweep GroupIds m (Gid g) users w errs w' t ->
  forall errs0,
    DeleteAllTeleportSystemUsers_range GroupIds m (Some g) users errs0 w
    = Run (Returned (errs0 ++ errs)) w' t.
Proof.
  induction 1 as [w|u users w w1 w2 e errs t1 t2 Hrun Hrest IH];
    intros errs0.
  - simpl. now rewrite app_nil_r.
  - simpl. unfold deref. rewrite bind_ret.
    rewrite (bind_returned W _ _ w w1 e t1 Hrun), IH. simpl.
    now rewrite <- app_assoc.
Qed.

Lemma DeleteAllTeleportSystemUsers_spec (g : Group) (users : list string)
    (w w' : W) (errs : list (option error)) (t : list Event) :
  GetAllUsers m w = (users, None) ->
  LookupGroup m TeleportServiceGroup w = (Some g, None) ->
  sweep GroupIds m (Gid g) users w errs w' t ->
  DeleteAllTeleportSystemUsers GroupIds m w
  = Run (Returned (NewAggregate errs)) w'
        (CallGetAllUsers :: CallLookupGroup TeleportServiceGroup :: t).
Proof.
  intros HU HG Hs.
  unfold DeleteAllTeleportSystemUsers, bind, callGetAllUsers,
    callLookupGroup, read, ret. simpl. rewrite HU. simpl. rewrite HG. simpl.
  rewrite (DeleteAllTeleportSystemUsers_range_spec g users w w' errs t Hs []).
  simpl. now rewrite app_nil_r.
Qed.

(** C3. [DeleteAllTeleportSystemUsers] goes through the whole
    enumeration whatever the single accounts return.  First part: once
    the enumeration and the marker group are resolved, on a backend whose
    [Lookup] gives an account or an error, [deleteUserInGroup] is run on
    every account in turn, its result (nil or not) is collected, and the
    aggregate of the collected errors is returned at the end, nil when
    there is none.  Second part: with three accounts of the marker group,
    where [userDel] reports no error for the first and the third and an
    error with another code than logged-in for the second, [userDel] is
    still called for the third and the aggregate holds exactly the
    wrapped error of the second. *)
Theorem DeleteAllTeleportSystemUsers_collects_all :
  (forall (w : W) (users : list string) (g : Group),
      Lookup_answers m ->
      GetAllUsers m w = (users, None) ->
      LookupGroup m TeleportServiceGroup w = (Some g, None) ->
      exists errs w' t,
        sweep GroupIds m (Gid g) users w errs w' t /\
        length errs = length users /\
        (forall u, In u users -> In (CallLookup u) t) /\
        let r := DeleteAllTeleportSystemUsers GroupIds m w in
        result r = Returned (NewAggregate errs) /\
        world r = w' /\
        calls r = CallGetAllUsers :: CallLookupGroup TeleportServiceGroup :: t /\
        (nonNils errs = [] -> result r = Returned None) /\
        (nonNils errs <> [] ->
         result r = Returned (Some (TraceAggregate (nonNils errs))))) /\
  (forall (w w1 w2 w3 : W) (u1 u2 u3 : string) (g : Group)
          (t1 t2 t3 : User) (ids1 ids2 ids3 : list string)
          (c1 c2 c3 : Z) (e : error),
      GetAllUsers m w = ([u1; u2; u3], None) ->
      LookupGroup m TeleportServiceGroup w = (Some g, None) ->
      Lookup m u1 w = (Some t1, None) -> GroupIds t1 w = (ids1, None) ->
      In (Gid g) ids1 -> userDel m u1 w = (c1, None, w1) ->
      Lookup m u2 w1 = (Some t2, None) -> GroupIds t2 w1 = (ids2, None) ->
      In (Gid g) ids2 -> userDel m u2 w1 = (c2, Some e, w2) ->
      c2 <> userLoggedInExit ->
      Lookup m u3 w2 = (Some t3, None) -> GroupIds t3 w2 = (ids3, None) ->
      In (Gid g) ids3 -> userDel m u3 w2 = (c3, None, w3) ->
      let r := DeleteAllTeleportSystemUsers GroupIds m w in
      result r = Returned (Some (TraceAggregate [TraceWrap e []])) /\
      world r = w3 /\
      In (CallUserDel u3) (calls r)).
Proof.
  split.
  - intros w users g Hans HU HG.
    destruct (sweep_total (Gid g) users w Hans)
      as (errs & w' & t & Hs & Hlen & Hall).
    exists errs, w', t. split; [exact Hs|]. split; [exact Hlen|].
    split; [exact Hall|].
    rewrite (DeleteAllTeleportSystemUsers_spec g users w w' errs t HU HG Hs).
    simpl. unfold NewAggregate.
    destruct (nonNils errs) as [|e es]; repeat split; congruence.
  - intros w w1 w2 w3 u1 u2 u3 g t1 t2 t3 ids1 ids2 ids3 c1 c2 c3 e
      HU HG HL1 HI1 Hin1 HD1 HL2 HI2 Hin2 HD2 Hc2 HL3 HI3 Hin3 HD3.
    pose proof (deleteUserInGroup_managed u1 (Gid g) w w1 t1 ids1 c1 None
                  HL1 HI1 Hin1 HD1) as R1.
    pose proof (deleteUserInGroup_managed u2 (Gid g) w1 w2 t2 ids2 c2 (Some e)
                  HL2 HI2 Hin2 HD2) as R2.
    pose proof (deleteUserInGroup_managed u3 (Gid g) w2 w3 t3 ids3 c3 None
                  HL3 HI3 Hin3 HD3) as R3.
    apply Z.eqb_neq in Hc2. rewrite Hc2 in R2.
    pose proof (sweep_cons GroupIds m (Gid g) _ _ _ _ _ _ _ _ _ R1
                  (sweep_cons GroupIds m (Gid g) _ _ _ _ _ _ _ _ _ R2
                     (sweep_cons GroupIds m (Gid g) _ _ _ _ _ _ _ _ _ R3
                        (sweep_nil GroupIds m (Gid g) w3)))) as Hs.
    rewrite (DeleteAllTeleportSystemUsers_spec g _ w w3 _ _ HU HG Hs).
    simpl. split; [|split; [reflexivity|]].
    + unfold NewAggregate. destruct (Z.eqb c1 userLoggedInExit),
        (Z.eqb c3 userLoggedInExit); reflexivity.
    + destruct (Z.eqb c1 userLoggedInExit), (Z.eqb c3 userLoggedInExit);
        simpl; auto 20.
Qed.

(** C10. [Close] resolves the marker group first.  When that lookup
    returns an error, [Close] returns it wrapped and that lookup is the
    only call it has made: the account is not looked up, [userDel] is not
    called, and the host is as it was. *)
Theorem Close_marker_group_lookup_fails (u : userCloser W) (w : W)
    (og : option Group) (e : error) :
  LookupGroup (mgmt u) TeleportServiceGroup w = (og, Some e) ->
  let r := Close GroupIds u w in
  result r = Returned (Some (TraceWrap e [])) /\
  world r = w /\
  calls r = [CallLookupGroup TeleportServiceGroup] /\
  (forall username, ~ In (CallLookup username) (calls r)) /\
  no_userDel (calls r) /\
  no_mutation (calls r).
Proof.
  intros HL r. subst r.
  unfold Close, Close_on, bind, callLookupGroup, read, ret. simpl.
  rewrite HL. simpl. repeat split.
  intros username [H|[]]. discriminate.
Qed.

End Teardown.

(** ** The unix backend: what the properties above ask of a backend *)

Section UnixBackend.

Import Unix.

Lemma unix_Lookup_answers : Lookup_answers unixMgmt.
Proof.
  intros username h. simpl. unfold user_Lookup.
  destruct (find _ (passwd h)); discriminate.
Qed.

Lemma unix_groupAdd_keeps (name : string) (h : Host) (code : Z)
    (e : option error) (h' : Host) :
  groupAdd unixMgmt name h = (code, e, h') ->
  code = groupExistExit \/ e = None ->
  present name h'.
Proof.
  simpl. unfold unix_groupAdd, LookPath, groupadd, exited.
  destruct (mem "groupadd" (PATH h)) eqn:HP.
  - destruct (String.eqb name "").
    + intros [= <- <- <-] [H|H]; discriminate.
    + destruct (group_exists name h) eqn:HE.
      * intros [= <- <- <-] _. now split.
      * intros [= <- <- <-] _. split; [exact HP|].
        unfold group_exists. simpl. rewrite existsb_app. simpl.
        rewrite String.eqb_refl. now rewrite orb_true_r.
  - intros [= <- <- <-] [H|H]; discriminate.
Qed.

Lemma unix_LookupGroup_present (name : string) (h : Host) :
  present name h ->
  exists g, LookupGroup unixMgmt name h = (Some g, None).
Proof.
  intros [_ HE]. simpl. unfold user_LookupGroup, group_exists in *.
  destruct (find _ (etc_group h)) as [g|] eqn:Hf; [eauto|].
  apply existsb_exists in HE as (g & Hin & Hg).
  pose proof (find_none _ _ Hf g Hin) as Hn. simpl in Hn. congruence.
Qed.

Lemma unix_groupAdd_present (name : string) (h : Host) :
  name <> "" ->
  present name h ->
  exists e h', groupAdd unixMgmt name h = (groupExistExit, e, h').
Proof.
  intros Hname [HP HE]. simpl. unfold unix_groupAdd, LookPath, groupadd.
  rewrite HP, HE. apply String.eqb_neq in Hname. rewrite Hname.
  unfold exited. simpl. eauto.
Qed.

End UnixBackend.

(** ** The properties on concrete hosts *)

Section OnUnixHosts.

Import Unix.

(** C1 on a host: alice, a member of staff only, is left alone. *)
Lemma deleteUserInGroup_unmanaged_untouched_witness :
  let r := deleteUserInGroup GroupIds unixMgmt "alice" "2000" fresh_host in
  result r = Returned None /\
  world r = fresh_host /\
  calls r = [CallLookup "alice"; CallGroupIds alice; LogDebugf "alice"] /\
  no_userDel (calls r) /\
  no_mutation (calls r).
Proof.
  apply (deleteUserInGroup_unmanaged_untouched Host GroupIds unixMgmt
           "alice" "2000" fresh_host alice ["1000"; "50"]).
  - reflexivity.
  - reflexivity.
  - simpl. intros [H|[H|[]]]; discriminate.
Defined.

(** C5 on a host: svc2 is in the marker group and logged in; userdel(8)
    refuses, the host is as it was and svc2 is still there. *)
Lemma deleteUserInGroup_busy_is_success_witness :
  let h := managed_host ["svc2"] [] in
  let r := deleteUserInGroup GroupIds unixMgmt "svc2" "2000" h in
  userDel unixMgmt "svc2" h = (userLoggedInExit, Some (ExitError 8), h) /\
  result r = Returned None /\
  world r = h /\
  calls r = [CallLookup "svc2"; CallGroupIds (svc "svc2" "2002");
             CallUserDel "svc2"; LogWarnf "svc2"] /\
  Lookup unixMgmt "svc2" (world r) = (Some (svc "svc2" "2002"), None).
Proof.
  intros h.
  destruct (deleteUserInGroup_busy_is_success Host GroupIds unixMgmt
              "svc2" "2000" h h (svc "svc2" "2002") ["2002"; "2000"]
              (Some (ExitError 8)))
    as (Hres & Hworld & Hcalls & _ & _ & Hkept).
  - reflexivity.
  - reflexivity.
  - simpl. auto.
  - reflexivity.
  - split; [reflexivity|]. split; [exact Hres|]. split; [exact Hworld|].
    split; [exact Hcalls|]. apply Hkept. reflexivity.
Defined.

(** C2, the reading of the claim refuted: staff is found on the host and
    groupadd(8) is run for it all the same. *)
Lemma groupAdd_called_when_group_found :
  ~ groupAdd_skipped_when_group_found.
Proof.
  intros H.
  specialize (H Host unixMgmt "staff" fresh_host (mkGroup "50" "staff")
                eq_refl).
  vm_compute in H. discriminate.
Qed.

(** C2 on a host: staff is found, [groupAdd] is called. *)
Lemma createGroupIfNotExist_groupAdd_unless_lookup_fails_witness :
  LookupGroup unixMgmt "staff" fresh_host
  = (Some (mkGroup "50" "staff"), None) /\
  calls (createGroupIfNotExist unixMgmt "staff" fresh_host)
  = [CallLookupGroup "staff"; CallGroupAdd "staff"].
Proof.
  split; [reflexivity|].
  apply (proj1 (createGroupIfNotExist_groupAdd_unless_lookup_fails
                  Host unixMgmt "staff" fresh_host
                  (Some (mkGroup "50" "staff")) None eq_refl)).
  now left.
Defined.

(** C6, the reading of the claim refuted: without groupadd(8) on the
    host the second call fails as the first did. *)
Lemma second_bootstrap_fails_without_groupadd :
  ~ second_bootstrap_never_fails.
Proof.
  intros H. specialize (H Host unixMgmt "docker" bare_host).
  vm_compute in H. discriminate.
Qed.

(** C6 on hosts: docker is created by the first call, found by the
    second, and groupadd(8) then leaves with status 9 and an error; and
    without groupadd(8) both calls return the error of the search. *)
Lemma createGroupIfNotExist_twice_witness :
  (let r1 := createGroupIfNotExist unixMgmt "docker" fresh_host in
   let r2 := createGroupIfNotExist unixMgmt "docker" (world r1) in
   groupAdd unixMgmt "docker" (world r1)
   = (groupExistExit, Some (ExitError 9), world r1) /\
   result r1 = Returned None /\
   result r2 = Returned None /\
   world r2 = world r1) /\
  (let r1 := createGroupIfNotExist unixMgmt "docker" bare_host in
   let r2 := createGroupIfNotExist unixMgmt "docker" (world r1) in
   let e := TraceWrap (ErrNotFound "groupadd") ["cant find groupadd binary"] in
   result r1 = Returned (Some (TraceWrap e [])) /\
   world r1 = bare_host /\
   result r2 = Returned (Some (TraceWrap e []))).
Proof.
  destruct (createGroupIfNotExist_twice Host unixMgmt "docker")
    as (Hexit & Htwice & Hpersist).
  split.
  - set (h1 := world (createGroupIfNotExist unixMgmt "docker" fresh_host)).
    simpl. split; [reflexivity|]. split; [reflexivity|]. split.
    + apply (Htwice (present "docker")
               (unix_groupAdd_keeps "docker")
               (unix_LookupGroup_present "docker")
               (fun h => unix_groupAdd_present "docker" h
                           ltac:(discriminate))
               fresh_host).
      reflexivity.
    + apply (Hexit h1 (Some (mkGroup "2000" "docker")) None
               (Some (ExitError 9)) h1); [reflexivity|now left|reflexivity].
  - apply (Hpersist bare_host bare_host bare_host None None
             (Some (UnknownGroupError "docker"))
             (Some (UnknownGroupError "docker")) (-1)%Z (-1)%Z).
    + reflexivity.
    + now right.
    + reflexivity.
    + discriminate.
    + reflexivity.
    + now right.
    + reflexivity.
    + discriminate.
Defined.

End OnUnixHosts.

Section OnUnixHostsCreation.

Import Unix.

(** C4 on a host: alice exists. *)
Lemma createTemporaryUser_existing_account_witness :
  exists closer,
    result (createTemporaryUser unixMgmt "alice" ["docker"] fresh_host)
    = Returned (Some closer, [],
                Some (TraceAlreadyExists "User already exists")) /\
    user closer = "alice" /\
    mgmt closer = unixMgmt.
Proof.
  apply (createTemporaryUser_existing_account Host unixMgmt "alice"
           ["docker"] fresh_host alice).
  reflexivity.
Defined.

(** C9 on a host: alice exists, the marker group does not, and still
    does not afterwards. *)
Lemma createTemporaryUser_existing_account_frame_witness :
  let r := createTemporaryUser unixMgmt "alice" ["docker"] fresh_host in
  calls r = [CallLookup "alice"] /\
  no_mutation (calls r) /\
  no_groupAdd (calls r) /\
  no_userAdd (calls r) /\
  world r = fresh_host /\
  (exists closer err, result r = Returned (closer, [], err)) /\
  LookupGroup unixMgmt TeleportServiceGroup (world r)
  = LookupGroup unixMgmt TeleportServiceGroup fresh_host.
Proof.
  apply (createTemporaryUser_existing_account_frame Host unixMgmt "alice"
           ["docker"] fresh_host alice).
  reflexivity.
Defined.

(** C7 on a host: of docker, the empty name and the marker group, the
    second cannot be created; the other two are, and are reported. *)
Lemma createTemporaryUser_group_errors_witness :
  let r := createTemporaryUser unixMgmt "svc1" ["docker"; ""] fresh_host in
  result r
  = Returned (None, ["docker"; TeleportServiceGroup],
              Some (TraceWrapWithMessage
                      (TraceAggregate [TraceWrap (ExitError 3) []])
                      "error while creating groups")) /\
  no_userAdd (calls r).
Proof.
  destruct (createTemporaryUser_group_errors Host unixMgmt "svc1"
              ["docker"; ""] fresh_host (Some (UnknownUserError "svc1"))
              eq_refl (or_intror eq_refl)) as [_ H].
  edestruct H as (_ & _ & Hres).
  - eapply bootstraps_cons; [reflexivity|].
    eapply bootstraps_cons; [reflexivity|].
    eapply bootstraps_cons; [reflexivity|].
    apply bootstraps_nil.
  - destruct (Hres ltac:(discriminate)) as (R1 & _ & _ & R4).
    split; [exact R1|exact R4].
Defined.

(** C8 on hosts: svc1 is created with docker and the marker group; and
    when alice appears between the lookup and useradd(8), which then
    leaves with status 9 and an error, the closer is returned all the
    same. *)
Lemma createTemporaryUser_userAdd_witness :
  (let r := createTemporaryUser unixMgmt "svc1" ["docker"] fresh_host in
   In (CallUserAdd "svc1" ["docker"; TeleportServiceGroup]) (calls r) /\
   result r = Returned (Some (mkUserCloser unixMgmt "svc1"),
                        ["docker"; TeleportServiceGroup], None)) /\
  (let r := createTemporaryUser racingMgmt "alice" [] fresh_host in
   userAdd racingMgmt "alice" [TeleportServiceGroup]
     (snd (groupAdd racingMgmt TeleportServiceGroup fresh_host))
   = (userExistExit, Some (ExitError 9),
      snd (groupAdd racingMgmt TeleportServiceGroup fresh_host)) /\
   result r = Returned (Some (mkUserCloser racingMgmt "alice"),
                        [TeleportServiceGroup], None)).
Proof.
  split.
  - edestruct (createTemporaryUser_userAdd Host unixMgmt "svc1" ["docker"]
                 fresh_host) as (Hcalls & _ & _ & _ & Hok).
    + reflexivity.
    + right. reflexivity.
    + eapply bootstraps_cons; [reflexivity|].
      eapply bootstraps_cons; [reflexivity|].
      apply bootstraps_nil.
    + reflexivity.
    + reflexivity.
    + split; [|apply Hok; reflexivity].
      rewrite Hcalls. simpl. auto 10.
  - edestruct (createTemporaryUser_userAdd Host racingMgmt "alice" []
                 fresh_host) as (_ & _ & Hexists & _ & _).
    + reflexivity.
    + right. reflexivity.
    + eapply bootstraps_cons; [reflexivity|].
      apply bootstraps_nil.
    + reflexivity.
    + reflexivity.
    + split; [reflexivity|apply Hexists; reflexivity].
Defined.

End OnUnixHostsCreation.

Section OnUnixHostsTeardown.

Import Unix.

(** C3 on a host with svc1, svc2 and svc3 in the marker group, where the
    home directory of svc2 cannot be removed. *)
Lemma DeleteAllTeleportSystemUsers_collects_all_witness :
  let h := managed_host [] ["svc2"] in
  let r := DeleteAllTeleportSystemUsers GroupIds unixMgmt h in
  (exists errs w' t,
      sweep GroupIds unixMgmt "2000" ["svc1"; "svc2"; "svc3"] h errs w' t /\
      length errs = 3 /\
      result r = Returned (NewAggregate errs)) /\
  result r = Returned (Some (TraceAggregate [TraceWrap (ExitError 12) []])) /\
  In (CallUserDel "svc3") (calls r).
Proof.
  intros h r.
  destruct (DeleteAllTeleportSystemUsers_collects_all Host GroupIds unixMgmt)
    as [Hall Hthree].
  split.
  - destruct (Hall h ["svc1"; "svc2"; "svc3"]
                (mkGroup "2000" TeleportServiceGroup)
                unix_Lookup_answers eq_refl eq_refl)
      as (errs & w' & t & Hs & Hlen & _ & Hres & _).
    exists errs, w', t. auto.
  - edestruct (Hthree h) as (Hres & _ & Hthird).
    + reflexivity.
    + reflexivity.
    + reflexivity.
    + reflexivity.
    + simpl. auto.
    + reflexivity.
    + reflexivity.
    + reflexivity.
    + simpl. auto.
    + reflexivity.
    + discriminate.
    + reflexivity.
    + reflexivity.
    + simpl. auto.
    + reflexivity.
    + split; [exact Hres|exact Hthird].
Defined.

(** C10 on a host without the marker group. *)
Lemma Close_marker_group_lookup_fails_witness :
  let r := Close GroupIds (mkUserCloser unixMgmt "alice") fresh_host in
  result r
  = Returned (Some (TraceWrap (UnknownGroupError TeleportServiceGroup) [])) /\
  world r = fresh_host /\
  calls r = [CallLookupGroup TeleportServiceGroup] /\
  (forall username, ~ In (CallLookup username) (calls r)) /\
  no_userDel (calls r) /\
  no_mutation (calls r).
Proof.
  apply (Close_marker_group_lookup_fails Host GroupIds
           (mkUserCloser unixMgmt "alice") fresh_host None
           (UnknownGroupError TeleportServiceGroup)).
  reflexivity.
Defined.

End OnUnixHostsTeardown.

(** ** Further properties of safe deletion *)

(** Which [userDel] events a record written out in full holds. *)
Ltac pick_userDel :=
  let u := fresh "u" in
  let Hu := fresh "Hu" in
  intros u Hu; simpl in Hu;
  repeat (destruct Hu as [Hu|Hu]; [try discriminate Hu|]);
  try contradiction;
  try (injection Hu as <-).

(** The counting and frame facts of a record written out in full. *)
Ltac frame_facts :=
  unfold no_userDel, no_groupAdd, no_userAdd, no_mutation, count_userDel,
    count_userAdd;
  simpl; repeat split; auto; try discriminate.


Section DeletionMore.

Variable W : Type.
Variable GroupIds : User -> W -> list string * option error.
Variable m : UserManagement W.

(** The run of [deleteUserInGroup] when an account comes back from
    [Lookup] without error, whatever [GroupIds] gives. *)
Lemma deleteUserInGroup_after_lookup (username gid : string) (w : W)
    (tempUser : User) :
  Lookup m username w = (Some tempUser, None) ->
  deleteUserInGroup GroupIds m username gid w
  = match GroupIds tempUser w with
    | (_, Some e) =>
        Run (Returned (Some (TraceWrap e []))) w
            [CallLookup username; CallGroupIds tempUser]
    | (ids, None) =>
        let r := deleteUserInGroup_range m username gid ids w in
        Run (result r) (world r)
            (CallLookup username :: CallGroupIds tempUser :: calls r)
    end.
Proof.
  intros HL.
  destruct (GroupIds tempUser w) as [ids [e|]] eqn:HG.
  - unfold deleteUserInGroup, bind, callLookup, callGroupIds, read, deref, ret.
    simpl. rewrite HL. simpl. rewrite HG. reflexivity.
  - exact (deleteUserInGroup_resolved W GroupIds m username gid w tempUser ids
             HL HG).
Qed.

(** The run of [deleteUserInGroup] when [Lookup] returns an error. *)
Lemma deleteUserInGroup_lookup_failed (username gid : string) (w : W)
    (tempUser : option User) (e : error) :
  Lookup m username w = (tempUser, Some e) ->
  deleteUserInGroup GroupIds m username gid w
  = Run (Returned (Some (TraceWrap e []))) w [CallLookup username].
Proof.
  intros HL.
  unfold deleteUserInGroup, bind, callLookup, read, ret. simpl.
  rewrite HL. reflexivity.
Qed.

(** X1. When [Lookup] returns an error, [deleteUserInGroup] returns it
    wrapped right away, also when an account comes with the error: the
    group ids are not read, [userDel] is not called, the host is as it
    was. *)
Theorem deleteUserInGroup_lookup_error (username gid : string) (w : W)
    (tempUser : option User) (e : error) :
  Lookup m username w = (tempUser, Some e) ->
  let r := deleteUserInGroup GroupIds m username gid w in
  result r = Returned (Some (TraceWrap e [])) /\
  world r = w /\
  calls r = [CallLookup username] /\
  no_userDel (calls r).
Proof.
  intros HL r. subst r.
  rewrite (deleteUserInGroup_lookup_failed username gid w tempUser e HL).
  repeat split.
Qed.

(** X2. When [GroupIds] returns an error, [deleteUserInGroup] returns it
    wrapped and does not look at the ids that came with it, whatever they
    are: [userDel] is not called, also when the gid is among them. *)
Theorem deleteUserInGroup_GroupIds_error (username gid : string) (w : W)
    (tempUser : User) (ids : list string) (e : error) :
  Lookup m username w = (Some tempUser, None) ->
  GroupIds tempUser w = (ids, Some e) ->
  let r := deleteUserInGroup GroupIds m username gid w in
  result r = Returned (Some (TraceWrap e [])) /\
  world r = w /\
  calls r = [CallLookup username; CallGroupIds tempUser] /\
  no_userDel (calls r).
Proof.
  intros HL HG r. subst r.
  rewrite (deleteUserInGroup_after_lookup username gid w tempUser HL), HG.
  simpl. repeat split.
Qed.

(** X3. On every backend and from every host, [deleteUserInGroup] calls
    [userDel] at most once and for the given username only, and only after
    the account and its group ids resolved without error with the gid
    among them; it never calls [groupAdd] or [userAdd]; and when it did not
    call [userDel] the host is as it was. *)
Theorem deleteUserInGroup_userDel_guarded (username gid : string) (w : W) :
  let r := deleteUserInGroup GroupIds m username gid w in
  (forall u, In (CallUserDel u) (calls r) ->
     u = username /\
     exists tempUser ids,
       Lookup m username w = (Some tempUser, None) /\
       GroupIds tempUser w = (ids, None) /\
       In gid ids) /\
  count_userDel (calls r) <= 1 /\
  no_groupAdd (calls r) /\
  no_userAdd (calls r) /\
  (no_userDel (calls r) -> world r = w).
Proof.
  intros r. subst r.
  destruct (Lookup m username w) as [[tempUser|] [e|]] eqn:HL.
  - rewrite (deleteUserInGroup_lookup_failed username gid w _ e HL).
    split; [pick_userDel|frame_facts].
  - rewrite (deleteUserInGroup_after_lookup username gid w tempUser HL).
    destruct (GroupIds tempUser w) as [ids [e|]] eqn:HG.
    + split; [pick_userDel|frame_facts].
    + destruct (in_dec string_dec gid ids) as [Hin|Hnot].
      * rewrite (deleteUserInGroup_range_present W m username gid ids w Hin).
        destruct (userDel m username w) as [[code err] w'].
        destruct (Z.eqb code userLoggedInExit);
          (split; [pick_userDel; split; eauto|frame_facts]).
      * rewrite (deleteUserInGroup_range_absent W m username gid ids w Hnot).
        split; [pick_userDel|frame_facts].
  - rewrite (deleteUserInGroup_lookup_failed username gid w _ e HL).
    split; [pick_userDel|frame_facts].
  - unfold deleteUserInGroup, bind, callLookup, read, deref, panic, ret.
    simpl. rewrite HL. simpl.
    split; [pick_userDel|frame_facts].
Qed.

(** X4. For an account of the group, the result of [deleteUserInGroup]
    is read off the answer of [userDel]: nil exactly when the exit code is
    the logged-in code or the error is nil, whatever other code comes with
    a nil error; otherwise the error, wrapped.  The host is as [userDel]
    left it. *)
Theorem deleteUserInGroup_result_of_userDel (username gid : string)
    (w w' : W) (tempUser : User) (ids : list string) (code : Z)
    (err : option error) :
  Lookup m username w = (Some tempUser, None) ->
  GroupIds tempUser w = (ids, None) ->
  In gid ids ->
  userDel m username w = (code, err, w') ->
  let r := deleteUserInGroup GroupIds m username gid w in
  world r = w' /\
  count_userDel (calls r) = 1 /\
  (result r = Returned None <-> code = userLoggedInExit \/ err = None) /\
  (code <> userLoggedInExit -> result r = Returned (Wrap err)).
Proof.
  intros HL HG Hin HD r. subst r.
  rewrite (deleteUserInGroup_after_lookup username gid w tempUser HL), HG.
  rewrite (deleteUserInGroup_range_present W m username gid ids w Hin), HD.
  destruct (Z.eqb_spec code userLoggedInExit) as [->|Hne]; simpl.
  - repeat split; auto. intros H. contradiction.
  - repeat split; auto.
    + intros H. right. destruct err; simpl in H; [discriminate|reflexivity].
    + intros [H| ->]; [contradiction|reflexivity].
Qed.

End DeletionMore.

(** ** Further properties of bulk teardown and of the closer *)

Section TeardownMore.

Variable W : Type.
Variable GroupIds : User -> W -> list string * option error.
Variable m : UserManagement W.

Lemma bind_Forall {A B : Type} (P : Event -> Prop) (c : M W A)
    (k : A -> M W B) (w : W) :
  Forall P (calls (c w)) ->
  (forall a w1, Forall P (calls (k a w1))) ->
  Forall P (calls (bind c k w)).
Proof.
  intros Hc Hk. unfold bind.
  destruct (c w) as [[a|] w1 t]; simpl in *; [|exact Hc].
  apply Forall_app. split; [exact Hc|apply Hk].
Qed.

(** Every event of [deleteUserInGroup] on an enumerated account is an
    event of the sweep. *)
Lemma deleteUserInGroup_sweep_events (users : list string)
    (username gid : string) (w : W) :
  In username users ->
  Forall (sweep_event users)
    (calls (deleteUserInGroup GroupIds m username gid w)).
Proof.
  intros Hu.
  destruct (Lookup m username w) as [[tempUser|] [e|]] eqn:HL.
  - rewrite (deleteUserInGroup_lookup_failed W GroupIds m username gid w _ e HL).
    simpl. repeat constructor; exact Hu.
  - rewrite (deleteUserInGroup_after_lookup W GroupIds m username gid w
               tempUser HL).
    destruct (GroupIds tempUser w) as [ids [e|]].
    + simpl. repeat constructor; exact Hu.
    + destruct (in_dec string_dec gid ids) as [Hin|Hnot].
      * rewrite (deleteUserInGroup_range_present W m username gid ids w Hin).
        destruct (userDel m username w) as [[code err] w'].
        destruct (Z.eqb code userLoggedInExit); simpl;
          repeat constructor; exact Hu.
      * rewrite (deleteUserInGroup_range_absent W m username gid ids w Hnot).
        simpl. repeat constructor; exact Hu.
  - rewrite (deleteUserInGroup_lookup_failed W GroupIds m username gid w _ e HL).
    simpl. repeat constructor; exact Hu.
  - unfold deleteUserInGroup, bind, callLookup, read, deref, panic, ret.
    simpl. rewrite HL. simpl. repeat constructor; exact Hu.
Qed.

Lemma DeleteAllTeleportSystemUsers_range_events (all : list string)
    (teleportGroup : option Group) (users : list string) :
  incl users all ->
  forall (errs : list (option error)) (w : W),
    Forall (sweep_event all)
      (calls (DeleteAllTeleportSystemUsers_range GroupIds m teleportGroup
                users errs w)).
Proof.
  induction users as [|u rest IH]; intros Hincl errs w.
  - constructor.
  - simpl. apply bind_Forall.
    + destruct teleportGroup; constructor.
    + intros g w1. apply bind_Forall.
      * apply deleteUserInGroup_sweep_events. apply Hincl. now left.
      * intros e w2. apply IH. intros x Hx. apply Hincl. now right.
Qed.

Lemma sweep_events_frame (users : list string) (t : list Event) :
  Forall (sweep_event users) t ->
  no_groupAdd t /\ no_userAdd t /\
  (forall u, In (CallUserDel u) t -> In u users).
Proof.
  induction 1 as [|e t He Ht IH].
  - repeat split. intros u [].
  - destruct IH as (Hg & Ha & Hd).
    unfold no_groupAdd, no_userAdd in *. simpl.
    destruct e; simpl in *; try contradiction; rewrite ?Hg, ?Ha;
      (repeat split; auto; intros u' [H|H]; [try discriminate H|auto]).
    injection H as <-. exact He.
Qed.

Lemma DeleteAllTeleportSystemUsers_enumeration_failed (w : W)
    (users : list string) (e : error) :
  GetAllUsers m w = (users, Some e) ->
  DeleteAllTeleportSystemUsers GroupIds m w
  = Run (Returned (Some e)) w [CallGetAllUsers].
Proof.
  intros HU.
  unfold DeleteAllTeleportSystemUsers, bind, callGetAllUsers, read, ret.
  simpl. rewrite HU. reflexivity.
Qed.

(** X5. When the enumeration fails, [DeleteAllTeleportSystemUsers]
    returns that error as it is, not wrapped, whatever names came with it;
    the marker group is not looked up and no account is touched. *)
Theorem DeleteAllTeleportSystemUsers_enumeration_error (w : W)
    (users : list string) (e : error) :
  GetAllUsers m w = (users, Some e) ->
  let r := DeleteAllTeleportSystemUsers GroupIds m w in
  result r = Returned (Some e) /\
  world r = w /\
  calls r = [CallGetAllUsers] /\
  no_mutation (calls r).
Proof.
  intros HU r. subst r.
  rewrite (DeleteAllTeleportSystemUsers_enumeration_failed w users e HU).
  repeat split.
Qed.

Lemma DeleteAllTeleportSystemUsers_marker_group_failed (w : W)
    (users : list string) (og : option Group) (e : error) :
  GetAllUsers m w = (users, None) ->
  LookupGroup m TeleportServiceGroup w = (og, Some e) ->
  DeleteAllTeleportSystemUsers GroupIds m w
  = Run (Returned (Some (TraceWrap e []))) w
        [CallGetAllUsers; CallLookupGroup TeleportServiceGroup].
Proof.
  intros HU HG.
  unfold DeleteAllTeleportSystemUsers, bind, callGetAllUsers,
    callLookupGroup, read, ret.
  simpl. rewrite HU. simpl. rewrite HG. reflexivity.
Qed.

(** X6. When the marker group does not resolve,
    [DeleteAllTeleportSystemUsers] returns that error wrapped and touches
    no account, however many were enumerated: no account is looked up,
    [userDel] is not called, the host is as it was. *)
Theorem DeleteAllTeleportSystemUsers_marker_group_error (w : W)
    (users : list string) (og : option Group) (e : error) :
  GetAllUsers m w = (users, None) ->
  LookupGroup m TeleportServiceGroup w = (og, Some e) ->
  let r := DeleteAllTeleportSystemUsers GroupIds m w in
  result r = Returned (Some (TraceWrap e [])) /\
  world r = w /\
  calls r = [CallGetAllUsers; CallLookupGroup TeleportServiceGroup] /\
  no_mutation (calls r).
Proof.
  intros HU HG r. subst r.
  rewrite (DeleteAllTeleportSystemUsers_marker_group_failed w users og e HU HG).
  repeat split.
Qed.

(** X7. An empty enumeration without error gives nil after the two
    lookups, also when the marker group came back as a nil pointer: the
    group is only dereferenced inside the loop. *)
Theorem DeleteAllTeleportSystemUsers_no_accounts (w : W)
    (og : option Group) :
  GetAllUsers m w = ([], None) ->
  LookupGroup m TeleportServiceGroup w = (og, None) ->
  let r := DeleteAllTeleportSystemUsers GroupIds m w in
  result r = Returned None /\
  world r = w /\
  calls r = [CallGetAllUsers; CallLookupGroup TeleportServiceGroup].
Proof.
  intros HU HG r. subst r.
  unfold DeleteAllTeleportSystemUsers, bind, callGetAllUsers,
    callLookupGroup, read, ret.
  simpl. rewrite HU. simpl. rewrite HG. repeat split.
Qed.

(** The run of [DeleteAllTeleportSystemUsers] once both lookups returned
    without error. *)
Lemma DeleteAllTeleportSystemUsers_after_lookups (w : W)
    (users : list string) (og : option Group) :
  GetAllUsers m w = (users, None) ->
  LookupGroup m TeleportServiceGroup w = (og, None) ->
  DeleteAllTeleportSystemUsers GroupIds m w
  = let rr := DeleteAllTeleportSystemUsers_range GroupIds m og users [] w in
    Run match result rr with
        | Returned errs => Returned (NewAggregate errs)
        | Panicked => Panicked
        end
        (world rr)
        (CallGetAllUsers :: CallLookupGroup TeleportServiceGroup :: calls rr).
Proof.
  intros HU HG.
  unfold DeleteAllTeleportSystemUsers, bind, callGetAllUsers,
    callLookupGroup, read, ret.
  simpl. rewrite HU. simpl. rewrite HG. simpl.
  destruct (DeleteAllTeleportSystemUsers_range GroupIds m og users [] w)
    as [[errs|] w' t]; simpl; [now rewrite app_nil_r|reflexivity].
Qed.

(** With a nil marker group the loop calls nothing. *)
Lemma DeleteAllTeleportSystemUsers_range_nil_group (users : list string)
    (errs : list (option error)) (w : W) :
  calls (DeleteAllTeleportSystemUsers_range GroupIds m None users errs w) = [].
Proof.
  destruct users; reflexivity.
Qed.

(** X8. On every backend and from every host,
    [DeleteAllTeleportSystemUsers] calls [userDel] only for names of the
    enumeration, and only when the enumeration returned no error and the
    marker group resolved; it looks up no other account and never calls
    [groupAdd] or [userAdd]. *)
Theorem DeleteAllTeleportSystemUsers_deletes_only_enumerated (w : W) :
  let r := DeleteAllTeleportSystemUsers GroupIds m w in
  let users := fst (GetAllUsers m w) in
  Forall (sweep_event users) (calls r) /\
  no_groupAdd (calls r) /\
  no_userAdd (calls r) /\
  (forall u, In (CallUserDel u) (calls r) ->
     In u users /\
     snd (GetAllUsers m w) = None /\
     exists g, LookupGroup m TeleportServiceGroup w = (Some g, None)).
Proof.
  intros r users. subst r users.
  destruct (GetAllUsers m w) as [us [e|]] eqn:HU.
  { rewrite (DeleteAllTeleportSystemUsers_enumeration_failed w us e HU).
    simpl. split; [repeat constructor|]. split; [reflexivity|].
    split; [reflexivity|]. intros u [H|[]]. discriminate. }
  destruct (LookupGroup m TeleportServiceGroup w) as [og [e|]] eqn:HG.
  { rewrite (DeleteAllTeleportSystemUsers_marker_group_failed w us og e HU HG).
    simpl. split; [repeat constructor|]. split; [reflexivity|].
    split; [reflexivity|]. intros u [H|[H|[]]]; discriminate. }
  rewrite (DeleteAllTeleportSystemUsers_after_lookups w us og HU HG).
  cbv zeta. cbn [calls fst snd].
  assert (Hall : Forall (sweep_event us)
                   (CallGetAllUsers :: CallLookupGroup TeleportServiceGroup
                      :: calls (DeleteAllTeleportSystemUsers_range GroupIds m
                                  og us [] w))).
  { constructor; [exact I|]. constructor; [exact I|].
    apply DeleteAllTeleportSystemUsers_range_events. apply incl_refl. }
  destruct (sweep_events_frame us _ Hall) as (Hg & Ha & Hd).
  split; [exact Hall|]. split; [exact Hg|]. split; [exact Ha|].
  intros u Hu. split; [exact (Hd u Hu)|]. split; [reflexivity|].
  destruct og as [g|]; [eauto|].
  rewrite DeleteAllTeleportSystemUsers_range_nil_group in Hu.
  destruct Hu as [H|[H|[]]]; discriminate.
Qed.

(** A sweep over accounts none of which has the gid returns nil for each
    and changes nothing. *)
Lemma sweep_unmanaged (gid : string) (users : list string) (w : W) :
  (forall u, In u users ->
     exists tempUser ids,
       Lookup m u w = (Some tempUser, None) /\
       GroupIds tempUser w = (ids, None) /\
       ~ In gid ids) ->
  exists t,
    sweep GroupIds m gid users w (map (fun _ => None) users) w t /\
    no_mutation t.
Proof.
  induction users as [|u rest IH]; intros Hall.
  - exists []. split; [constructor|reflexivity].
  - destruct (Hall u (or_introl eq_refl)) as (tempUser & ids & HL & HG & Hnot).
    destruct IH as (t & Hs & Hno).
    { intros u' Hu'. apply Hall. now right. }
    eexists. split.
    + simpl. eapply sweep_cons; [|exact Hs].
      rewrite (deleteUserInGroup_after_lookup W GroupIds m u gid w tempUser HL),
        HG.
      rewrite (deleteUserInGroup_range_absent W m u gid ids w Hnot).
      reflexivity.
    + unfold no_mutation in *. simpl. exact Hno.
Qed.

Lemma nonNils_all_nil {A : Type} (l : list A) :
  nonNils (map (fun _ => None) l) = [].
Proof.
  induction l; simpl; auto.
Qed.

(** X9. When every enumerated account resolves and none of them has the
    gid of the marker group among its group ids,
    [DeleteAllTeleportSystemUsers] returns nil, calls no mutating method
    and leaves the host as it was. *)
Theorem DeleteAllTeleportSystemUsers_unmanaged_host_untouched (w : W)
    (users : list string) (g : Group) :
  GetAllUsers m w = (users, None) ->
  LookupGroup m TeleportServiceGroup w = (Some g, None) ->
  (forall u, In u users ->
     exists tempUser ids,
       Lookup m u w = (Some tempUser, None) /\
       GroupIds tempUser w = (ids, None) /\
       ~ In (Gid g) ids) ->
  let r := DeleteAllTeleportSystemUsers GroupIds m w in
  result r = Returned None /\
  world r = w /\
  no_mutation (calls r).
Proof.
  intros HU HG Hall r. subst r.
  destruct (sweep_unmanaged (Gid g) users w Hall) as (t & Hs & Hno).
  rewrite (DeleteAllTeleportSystemUsers_spec W GroupIds m g users w w _ t
             HU HG Hs).
  simpl. unfold NewAggregate. rewrite nonNils_all_nil.
  repeat split. exact Hno.
Qed.

Lemma bind_ret_map {A B : Type} (c : M W A) (f : A -> B) (w : W) :
  bind c (fun a => ret (f a)) w
  = Run match result (c w) with
        | Returned a => Returned (f a)
        | Panicked => Panicked
        end
        (world (c w)) (calls (c w)).
Proof.
  unfold bind, ret. destruct (c w) as [[a|] w' t]; simpl;
    rewrite ?app_nil_r; reflexivity.
Qed.

(** The run of [Close] once the marker group resolved. *)
Lemma Close_after_lookup (u : userCloser W) (w : W) (g : Group) :
  LookupGroup (mgmt u) TeleportServiceGroup w = (Some g, None) ->
  Close GroupIds u w
  = let d := deleteUserInGroup GroupIds (mgmt u) (user u) (Gid g) w in
    Run match result d with
        | Returned e => Returned (Wrap e)
        | Panicked => Panicked
        end
        (world d)
        (CallLookupGroup TeleportServiceGroup :: calls d).
Proof.
  intros HG.
  unfold Close, Close_on.
  rewrite (bind_returned W _ _ w w (Some g, None)
             [CallLookupGroup TeleportServiceGroup]).
  2: { unfold callLookupGroup, read. rewrite HG. reflexivity. }
  cbv beta iota. unfold deref. rewrite bind_ret, bind_ret_map. reflexivity.
Qed.

(** X10. Closing the handle of an account of the marker group: [userDel]
    is called once, the host is as [userDel] left it, and [Close] returns
    nil exactly when the exit code is the logged-in code or [userDel]
    reported no error. *)
Theorem Close_managed_account (u : userCloser W) (w w' : W) (g : Group)
    (tempUser : User) (ids : list string) (code : Z) (err : option error) :
  LookupGroup (mgmt u) TeleportServiceGroup w = (Some g, None) ->
  Lookup (mgmt u) (user u) w = (Some tempUser, None) ->
  GroupIds tempUser w = (ids, None) ->
  In (Gid g) ids ->
  userDel (mgmt u) (user u) w = (code, err, w') ->
  let r := Close GroupIds u w in
  world r = w' /\
  count_userDel (calls r) = 1 /\
  (result r = Returned None <-> code = userLoggedInExit \/ err = None).
Proof.
  intros HG HL HI Hin HD r. subst r.
  rewrite (Close_after_lookup u w g HG).
  rewrite (deleteUserInGroup_managed W GroupIds (mgmt u) (user u) (Gid g) w w'
             tempUser ids code err HL HI Hin HD).
  destruct (Z.eqb_spec code userLoggedInExit) as [->|Hne]; simpl.
  - repeat split; auto.
  - repeat split; auto.
    + intros H. right.
      destruct err; simpl in H; [discriminate|reflexivity].
    + intros [H| ->]; [contradiction|reflexivity].
Qed.

(** X11. The handle that [createTemporaryUser] returns for an account that
    was there before and is not in the marker group does not delete it:
    [Close] on it returns nil, calls no mutating method and leaves the
    host as it was. *)
Theorem Close_of_existing_unmanaged_account (username : string)
    (groups : list string) (w : W) (tempUser : User) (g : Group)
    (ids : list string) :
  Lookup m username w = (Some tempUser, None) ->
  LookupGroup m TeleportServiceGroup w = (Some g, None) ->
  GroupIds tempUser w = (ids, None) ->
  ~ In (Gid g) ids ->
  exists closer,
    createTemporaryUser m username groups w
    = Run (Returned (Some closer, [],
                     Some (TraceAlreadyExists "User already exists")))
          w [CallLookup username] /\
    let r := Close GroupIds closer w in
    result r = Returned None /\
    world r = w /\
    no_mutation (calls r).
Proof.
  intros HL HG HI Hnot. exists (mkUserCloser m username). split.
  - rewrite createTemporaryUser_run, HL. reflexivity.
  - rewrite (Close_after_lookup (mkUserCloser m username) w g HG).
    cbv zeta. cbn [mgmt user].
    rewrite (deleteUserInGroup_after_lookup W GroupIds m username (Gid g) w
               tempUser HL), HI.
    rewrite (deleteUserInGroup_range_absent W m username (Gid g) ids w Hnot).
    simpl. repeat split.
Qed.

(** X12. [Close] on a handle whose account no longer resolves, as after
    a first [Close] that deleted it, returns the lookup error and calls
    nothing that changes the host. *)
Theorem Close_account_gone (u : userCloser W) (w : W) (g : Group)
    (tempUser : option User) (e : error) :
  LookupGroup (mgmt u) TeleportServiceGroup w = (Some g, None) ->
  Lookup (mgmt u) (user u) w = (tempUser, Some e) ->
  let r := Close GroupIds u w in
  result r = Returned (Some (TraceWrap (TraceWrap e []) [])) /\
  world r = w /\
  calls r = [CallLookupGroup TeleportServiceGroup; CallLookup (user u)] /\
  no_mutation (calls r).
Proof.
  intros HG HL r. subst r.
  rewrite (Close_after_lookup u w g HG).
  rewrite (deleteUserInGroup_lookup_failed W GroupIds (mgmt u) (user u) (Gid g)
             w tempUser e HL).
  repeat split.
Qed.

End TeardownMore.

(** ** Further properties of group bootstrap and account creation *)

Section CreationMore.

Variable W : Type.
Variable m : UserManagement W.

(** X13. Once the lookup lets it through, the result of
    [createGroupIfNotExist] is read off the answer of [groupAdd]: nil
    exactly when the exit code is the group-exists code or the error is
    nil, whatever other code comes with a nil error; otherwise the error,
    wrapped.  The host is as [groupAdd] left it. *)
Theorem createGroupIfNotExist_result_of_groupAdd (group : string) (w w' : W)
    (og : option Group) (err aerr : option error) (code : Z) :
  LookupGroup m group w = (og, err) ->
  err = None \/ err = Some (UnknownGroupError group) ->
  groupAdd m group w = (code, aerr, w') ->
  let r := createGroupIfNotExist m group w in
  world r = w' /\
  (result r = Returned None <-> code = groupExistExit \/ aerr = None) /\
  (code <> groupExistExit -> result r = Returned (Wrap aerr)).
Proof.
  intros HL Hok HA r. subst r.
  rewrite createGroupIfNotExist_run, HL. simpl.
  apply group_guard_passes in Hok. rewrite Hok, HA.
  destruct (Z.eqb_spec code groupExistExit) as [->|Hne]; simpl.
  - repeat split; auto. intros H. contradiction.
  - repeat split; auto.
    + intros H. right. destruct aerr; simpl in H; [discriminate|reflexivity].
    + intros [H| ->]; [contradiction|reflexivity].
Qed.

(** X14. When [Lookup] returns an error other than the unknown-user error
    of that name, [createTemporaryUser] returns it wrapped with no closer
    and no group, also when an account comes with the error; nothing else
    is called. *)
Theorem createTemporaryUser_lookup_error (username : string)
    (groups : list string) (w : W) (tempUser : option User) (e : error) :
  Lookup m username w = (tempUser, Some e) ->
  e <> UnknownUserError username ->
  let r := createTemporaryUser m username groups w in
  result r = Returned (None, [], Some (TraceWrap e [])) /\
  world r = w /\
  calls r = [CallLookup username].
Proof.
  intros HL Hne r. subst r.
  rewrite createTemporaryUser_run, HL.
  destruct (notNil (Some e) && neq_UnknownUserError (Some e) username) eqn:Hg.
  - repeat split.
  - apply user_guard_passes in Hg as [H|H]; [discriminate|].
    injection H as ->. contradiction.
Qed.

Lemma succeeded_incl (groups : list string) (errs : list (option error)) :
  incl (succeeded groups errs) groups.
Proof.
  revert errs. induction groups as [|g groups IH]; intros errs.
  - destruct errs as [|[e|] errs]; intros x [].
  - destruct errs as [|[e|] errs]; simpl.
    + intros x [].
    + apply incl_tl, IH.
    + apply incl_cons; [now left|]. apply incl_tl, IH.
Qed.

Lemma bootstraps_events (username : string) (all groups : list string)
    (w w' : W) (errs : list (option error)) (t : list Event) :
  bootstraps m groups w errs w' t ->
  incl groups all ->
  Forall (creation_event username all) t.
Proof.
  induction 1 as [w|group groups w w1 w2 e errs t1 t2 Hrun Hrest IH];
    intros Hincl.
  - constructor.
  - assert (Hg : In group all) by (apply Hincl; now left).
    apply Forall_app. split.
    + rewrite createGroupIfNotExist_run in Hrun. simpl in Hrun.
      destruct (notNil _ && neq_UnknownGroupError _ group).
      * injection Hrun as _ _ <-. repeat constructor; exact Hg.
      * destruct (groupAdd m group w) as [[code err'] w'].
        injection Hrun as _ _ <-. repeat constructor; exact Hg.
    + apply IH. intros x Hx. apply Hincl. now right.
Qed.

Lemma count_userAdd_app (t1 t2 : list Event) :
  count_userAdd (t1 ++ t2) = count_userAdd t1 + count_userAdd t2.
Proof.
  unfold count_userAdd. now rewrite filter_app, length_app.
Qed.

Lemma no_userAdd_count (t : list Event) :
  no_userAdd t -> count_userAdd t = 0.
Proof.
  unfold no_userAdd, count_userAdd.
  induction t as [|e t IH]; simpl; [reflexivity|].
  intros H. apply orb_false_iff in H as [He Ht]. rewrite He. auto.
Qed.

Lemma creation_events_no_userDel (username : string) (all : list string)
    (t : list Event) :
  Forall (creation_event username all) t -> no_userDel t.
Proof.
  unfold no_userDel. induction 1 as [|e t He Ht IH]; simpl; [reflexivity|].
  destruct e; simpl in *; try contradiction; exact IH.
Qed.

(** X15. Whatever the backend answers, [createTemporaryUser] returns, and
    its three results go together: a nil closer comes with a non-nil
    error; a closer is bound to the username and the backend and comes
    with a nil error or, with no group reported, the AlreadyExists error;
    a nil error comes with a closer and with every requested group and the
    marker group reported; and the reported groups are always among
    those. *)
Theorem createTemporaryUser_results_go_together (username : string)
    (groups : list string) (w : W) :
  exists closer created err,
    result (createTemporaryUser m username groups w)
    = Returned (closer, created, err) /\
    (closer = None -> err <> None) /\
    (forall c, closer = Some c ->
       c = mkUserCloser m username /\
       (err = None \/
        err = Some (TraceAlreadyExists "User already exists") /\
        created = [])) /\
    (err = None ->
       closer <> None /\ created = groups ++ [TeleportServiceGroup]) /\
    incl created (groups ++ [TeleportServiceGroup]).
Proof.
  rewrite createTemporaryUser_run.
  destruct (Lookup m username w) as [tempUser err0].
  destruct (notNil err0 && neq_UnknownUserError err0 username) eqn:Hg.
  { apply andb_true_iff in Hg as [Hn _].
    destruct err0 as [e|]; [|discriminate].
    do 3 eexists. split; [reflexivity|]. simpl.
    split; [intros _; discriminate|].
    split; [intros c H; discriminate H|].
    split; [intros H; discriminate H|]. intros x []. }
  destruct (notNil tempUser).
  { do 3 eexists. split; [reflexivity|].
    split; [intros H; discriminate H|].
    split; [intros c [= <-]; split; [reflexivity|right; split; reflexivity]|].
    split; [intros H; discriminate H|]. intros x []. }
  destruct (bootstraps_total W m (groups ++ [TeleportServiceGroup]) w)
    as (errs & w' & t & Hb).
  destruct (bootstraps_facts W m _ _ _ _ _ Hb) as (Hlen & _ & _).
  cbv zeta.
  rewrite (createTemporaryUser_create_spec W m username groups w w' errs t Hb).
  cbv zeta. destruct (nonNils errs) as [|e es] eqn:Hnn.
  - rewrite (succeeded_all _ _ Hlen Hnn).
    destruct (userAdd m username (groups ++ [TeleportServiceGroup]) w')
      as [[code uerr] w''].
    destruct (negb (Z.eqb code userExistExit) && notNil uerr) eqn:Hf.
    + apply andb_true_iff in Hf as [_ Hn].
      destruct uerr as [ue|]; [|discriminate].
      do 3 eexists. split; [reflexivity|]. simpl.
      split; [intros _; discriminate|].
      split; [intros c H; discriminate H|].
      split; [intros H; discriminate H|]. apply incl_refl.
    + do 3 eexists. split; [reflexivity|].
      split; [intros H; discriminate H|].
      split; [intros c [= <-]; split; [reflexivity|now left]|].
      split; [intros _; split; [discriminate|reflexivity]|].
      apply incl_refl.
  - do 3 eexists. split; [reflexivity|]. simpl.
    split; [intros _; discriminate|].
    split; [intros c H; discriminate H|].
    split; [intros H; discriminate H|]. apply succeeded_incl.
Qed.

(** X16. Whatever the backend answers, [createTemporaryUser] never calls
    [userDel]; it looks up only the given username and the requested
    groups and the marker group, calls [groupAdd] only for those, and
    calls [userAdd] at most once, for the given username with the
    requested groups followed by the marker group. *)
Theorem createTemporaryUser_calls_only_for_its_arguments (username : string)
    (groups : list string) (w : W) :
  let r := createTemporaryUser m username groups w in
  Forall (creation_event username (groups ++ [TeleportServiceGroup]))
         (calls r) /\
  no_userDel (calls r) /\
  count_userAdd (calls r) <= 1.
Proof.
  intros r.
  assert (H : Forall (creation_event username
                        (groups ++ [TeleportServiceGroup])) (calls r) /\
              count_userAdd (calls r) <= 1).
  { subst r. rewrite createTemporaryUser_run.
    destruct (Lookup m username w) as [tempUser err0].
    destruct (notNil err0 && neq_UnknownUserError err0 username).
    { split; [repeat constructor|]. unfold count_userAdd. simpl. auto. }
    destruct (notNil tempUser).
    { split; [repeat constructor|]. unfold count_userAdd. simpl. auto. }
    destruct (bootstraps_total W m (groups ++ [TeleportServiceGroup]) w)
      as (errs & w' & t & Hb).
    destruct (bootstraps_facts W m _ _ _ _ _ Hb) as (_ & _ & Hno).
    pose proof (bootstraps_events username _ _ _ _ _ _ Hb
                  (incl_refl _)) as Hev.
    cbv zeta.
    rewrite (createTemporaryUser_create_spec W m username groups w w' errs t
               Hb).
    cbv zeta. destruct (nonNils errs) as [|e es].
    - destruct (userAdd m username (groups ++ [TeleportServiceGroup]) w')
        as [[code uerr] w''].
      cbn [calls]. split.
      + constructor; [reflexivity|]. apply Forall_app. split; [exact Hev|].
        repeat constructor.
      + change (count_userAdd
                  ([CallLookup username]
                     ++ t ++ [CallUserAdd username
                                (groups ++ [TeleportServiceGroup])]) <= 1).
        rewrite !count_userAdd_app, (no_userAdd_count t Hno).
        unfold count_userAdd. simpl. auto.
    - cbn [calls]. split.
      + constructor; [reflexivity|exact Hev].
      + change (count_userAdd ([CallLookup username] ++ t) <= 1).
        rewrite count_userAdd_app, (no_userAdd_count t Hno).
        unfold count_userAdd. simpl. auto. }
  destruct H as [Hev Hcount].
  split; [exact Hev|]. split; [|exact Hcount].
  exact (creation_events_no_userDel _ _ _ Hev).
Qed.

End CreationMore.

(** ** The manager over the methods of [unixMgmt] *)

Section UnixMgmtMore.

Variable W : Type.
Variable GroupIds : User -> W -> list string * option error.
Variable os_user_Lookup : string -> W -> option User * option error.
Variable os_user_LookupGroup : string -> W -> option Group * option error.
Variable os_getpwent_names : W -> list string.
Variable os_exec_LookPath : string -> W -> string * option error.
Variable os_exec_Run : string -> list string -> W -> (Z * option error) * W.

Let unix : UserManagement W :=
  unixMgmt_methods os_user_Lookup os_user_LookupGroup os_getpwent_names
    os_exec_LookPath os_exec_Run.

(** X17. With no entry in the password database, [GetAllUsers] reports
    NotFound, and [DeleteAllTeleportSystemUsers] over [unixMgmt] returns
    that error as it is after this one call; and whenever [GetAllUsers]
    reports no error its list is the enumeration and is not empty. *)
Theorem DeleteAllTeleportSystemUsers_unix_no_passwd_entries (w : W) :
  (os_getpwent_names w = [] ->
   let r := DeleteAllTeleportSystemUsers GroupIds unix w in
   result r
   = Returned (Some (TraceNotFound "failed to find any /etc/passwd entries")) /\
   world r = w /\
   calls r = [CallGetAllUsers]) /\
  (snd (GetAllUsers unix w) = None ->
   fst (GetAllUsers unix w) = os_getpwent_names w /\
   fst (GetAllUsers unix w) <> []).
Proof.
  split.
  - intros Hnone r. subst r.
    rewrite (DeleteAllTeleportSystemUsers_enumeration_failed W GroupIds unix w
               [] (TraceNotFound "failed to find any /etc/passwd entries")).
    + repeat split.
    + simpl. unfold unixMgmt_GetAllUsers. rewrite Hnone. reflexivity.
  - simpl. unfold unixMgmt_GetAllUsers.
    destruct (os_getpwent_names w) as [|n names]; simpl.
    + discriminate.
    + intros _. split; [reflexivity|discriminate].
Qed.

(** X18. When the userdel binary is not found, [deleteUserInGroup] over
    [unixMgmt] on an account of the group returns the error of the search,
    wrapped: the exit code -1 that comes with it is not taken for the
    logged-in code, no command is run and the host is as it was. *)
Theorem deleteUserInGroup_unix_userdel_missing (username gid : string)
    (w : W) (tempUser : User) (ids : list string) (path : string)
    (e : error) :
  os_user_Lookup username w = (Some tempUser, None) ->
  GroupIds tempUser w = (ids, None) ->
  In gid ids ->
  os_exec_LookPath "userdel" w = (path, Some e) ->
  let r := deleteUserInGroup GroupIds unix username gid w in
  result r
  = Returned (Some (TraceWrap (TraceWrap e ["cant find userdel binary"]) [])) /\
  world r = w.
Proof.
  intros HL HG Hin HP r. subst r.
  rewrite (deleteUserInGroup_managed W GroupIds unix username gid w w tempUser
             ids (-1)%Z (Some (TraceWrap e ["cant find userdel binary"]))
             HL HG Hin).
  - split; reflexivity.
  - simpl. unfold unixMgmt_userDel. rewrite HP. reflexivity.
Qed.

(** Without the groupadd binary every bootstrap over [unixMgmt] returns
    an error and leaves the host as it was. *)
Lemma bootstraps_unix_groupadd_missing (groups : list string) (w : W)
    (path : string) (e : error) :
  os_exec_LookPath "groupadd" w = (path, Some e) ->
  exists errs t,
    bootstraps unix groups w (map Some errs) w t /\
    length errs = length groups.
Proof.
  intros HP. induction groups as [|group rest IH].
  - exists [], []. split; [constructor|reflexivity].
  - destruct IH as (errs & t & Hb & Hlen).
    assert (Hone : exists e1 t1,
               createGroupIfNotExist unix group w
               = Run (Returned (Some e1)) w t1).
    { rewrite createGroupIfNotExist_run. cbv zeta.
      destruct (notNil (snd (LookupGroup unix group w))
                && neq_UnknownGroupError (snd (LookupGroup unix group w))
                     group) eqn:Hg.
      - apply andb_true_iff in Hg as [Hn _].
        destruct (snd (LookupGroup unix group w)) as [e1|]; [|discriminate].
        simpl. eauto.
      - simpl. unfold unixMgmt_groupAdd. rewrite HP. simpl. eauto. }
    destruct Hone as (e1 & t1 & Hrun).
    exists (e1 :: errs), (t1 ++ t). split; [|simpl; congruence].
    simpl. econstructor; eassumption.
Qed.

Lemma nonNils_map_Some (errs : list error) : nonNils (map Some errs) = errs.
Proof.
  induction errs as [|e errs IH]; simpl; [reflexivity|now rewrite IH].
Qed.

Lemma succeeded_map_Some (groups : list string) (errs : list error) :
  succeeded groups (map Some errs) = [].
Proof.
  revert errs. induction groups as [|g groups IH]; intros [|e errs]; simpl;
    auto.
Qed.

(** X19. When the groupadd binary is not found, [createGroupIfNotExist]
    over [unixMgmt] fails also for a group that the lookup finds: the
    search error comes back wrapped and the host is as it was. *)
Theorem createGroupIfNotExist_unix_groupadd_missing (group : string) (w : W)
    (g : Group) (path : string) (e : error) :
  os_user_LookupGroup group w = (Some g, None) ->
  os_exec_LookPath "groupadd" w = (path, Some e) ->
  let r := createGroupIfNotExist unix group w in
  result r
  = Returned (Some (TraceWrap (TraceWrap e ["cant find groupadd binary"]) [])) /\
  world r = w.
Proof.
  intros HL HP r. subst r.
  rewrite createGroupIfNotExist_run. simpl. rewrite HL. simpl.
  unfold unixMgmt_groupAdd. rewrite HP. split; reflexivity.
Qed.

(** X20. When the groupadd binary is not found and the username does not
    resolve, [createTemporaryUser] over [unixMgmt] creates nothing: it
    returns no closer, no group, and the aggregate of one error per
    requested group and one for the marker group under the message of the
    group step; [userAdd] is not called and the host is as it was. *)
Theorem createTemporaryUser_unix_groupadd_missing (username : string)
    (groups : list string) (w : W) (err : option error) (path : string)
    (e : error) :
  os_user_Lookup username w = (None, err) ->
  err = None \/ err = Some (UnknownUserError username) ->
  os_exec_LookPath "groupadd" w = (path, Some e) ->
  exists errs,
    length errs = S (length groups) /\
    let r := createTemporaryUser unix username groups w in
    result r
    = Returned (None, [],
                Some (TraceWrapWithMessage (TraceAggregate errs)
                        "error while creating groups")) /\
    world r = w /\
    no_userAdd (calls r).
Proof.
  intros HL Hok HP.
  destruct (bootstraps_unix_groupadd_missing
              (groups ++ [TeleportServiceGroup]) w path e HP)
    as (errs & t & Hb & Hlen).
  exists errs. split.
  { rewrite Hlen, length_app. simpl. now rewrite Nat.add_1_r. }
  destruct (bootstraps_facts W unix _ _ _ _ _ Hb) as (_ & _ & Hno).
  cbv zeta. rewrite createTemporaryUser_run.
  change (Lookup unix username w) with (os_user_Lookup username w).
  rewrite HL. apply user_guard_passes in Hok. rewrite Hok. simpl.
  rewrite (createTemporaryUser_create_spec W unix username groups w w
             (map Some errs) t Hb).
  cbv zeta. rewrite nonNils_map_Some, succeeded_map_Some.
  destruct errs as [|e1 errs].
  - rewrite length_app in Hlen. simpl in Hlen.
    rewrite Nat.add_1_r in Hlen. discriminate.
  - simpl. repeat split. exact Hno.
Qed.

(** X21. When the useradd binary is not found after every bootstrap
    returned nil, [createTemporaryUser] over [unixMgmt] returns no closer
    and the search error under the message of the user step (the exit code
    -1 is not taken for the user-exists code), with the requested groups
    and the marker group as created; the host is as the bootstraps left
    it. *)
Theorem createTemporaryUser_unix_useradd_missing (username : string)
    (groups : list string) (w w1 : W) (err : option error)
    (errs : list (option error)) (t : list Event) (path : string)
    (e : error) :
  os_user_Lookup username w = (None, err) ->
  err = None \/ err = Some (UnknownUserError username) ->
  bootstraps unix (groups ++ [TeleportServiceGroup]) w errs w1 t ->
  nonNils errs = [] ->
  os_exec_LookPath "useradd" w1 = (path, Some e) ->
  let r := createTemporaryUser unix username groups w in
  result r
  = Returned (None, groups ++ [TeleportServiceGroup],
              Some (TraceWrapWithMessage
                      (TraceWrap e ["cant find useradd binary"])
                      "error while creating user")) /\
  world r = w1.
Proof.
  intros HL Hok Hb Hnil HP r. subst r.
  destruct (bootstraps_facts W unix _ _ _ _ _ Hb) as (Hlen & _ & _).
  rewrite createTemporaryUser_run.
  change (Lookup unix username w) with (os_user_Lookup username w).
  rewrite HL. apply user_guard_passes in Hok. rewrite Hok. simpl.
  rewrite (createTemporaryUser_create_spec W unix username groups w w1 errs t
             Hb).
  cbv zeta. rewrite Hnil, (succeeded_all _ _ Hlen Hnil).
  change (userAdd unix username (groups ++ [TeleportServiceGroup]) w1)
    with (unixMgmt_userAdd os_exec_LookPath os_exec_Run username
            (groups ++ [TeleportServiceGroup]) w1).
  unfold unixMgmt_userAdd. rewrite HP. split; reflexivity.
Qed.

End UnixMgmtMore.

(** ** The commands that [unixMgmt] runs *)

Section UnixMgmtCommands.

Variable W : Type.
Variable os_exec_LookPath : string -> W -> string * option error.
Variable os_exec_Run : string -> list string -> W -> (Z * option error) * W.

Lemma append_assoc (a b c : string) :
  ((a ++ b) ++ c)%string = (a ++ (b ++ c))%string.
Proof.
  induction a as [|ch a IH]; simpl; [reflexivity|now rewrite IH].
Qed.

(** The last name of a joined list closes the joined string. *)
Lemma concat_ends_with_last (sep : string) (groups : list string)
    (g : string) :
  exists pre, String.concat sep (groups ++ [g]) = (pre ++ g)%string.
Proof.
  induction groups as [|x rest IH].
  - exists ""%string. reflexivity.
  - destruct IH as (pre & Hpre). simpl.
    destruct (rest ++ [g]) as [|y ys] eqn:Hr.
    + destruct rest; discriminate.
    + exists (x ++ sep ++ pre)%string. rewrite Hpre.
      now rewrite !append_assoc.
Qed.

(** X22. When usermod is found, [addUserToGroups] runs it with -aG
    first, then every group as an argument of its own, in order, then the
    username last; with no group the username comes right after -aG. *)
Theorem unixMgmt_addUserToGroups_command (username : string)
    (groups : list string) (w : W) (usermodBin : string) :
  os_exec_LookPath "usermod" w = (usermodBin, None) ->
  exists args,
    unixMgmt_addUserToGroups os_exec_LookPath os_exec_Run username groups w
    = os_exec_Run usermodBin args w /\
    length args = length groups + 2 /\
    nth_error args 0 = Some "-aG" /\
    (forall i g, nth_error groups i = Some g ->
                 nth_error args (S i) = Some g) /\
    nth_error args (S (length groups)) = Some username /\
    (groups = [] -> args = ["-aG"; username]).
Proof.
  intros HP. exists (unixMgmt_addUserToGroups_args username groups).
  unfold unixMgmt_addUserToGroups. rewrite HP.
  unfold unixMgmt_addUserToGroups_args. simpl.
  split; [reflexivity|]. split.
  { rewrite length_app. simpl. now rewrite Nat.add_1_r, Nat.add_comm. }
  split; [reflexivity|]. split.
  { intros i g Hi. rewrite nth_error_app1; [exact Hi|].
    apply nth_error_Some. congruence. }
  split.
  { rewrite nth_error_app2 by apply Nat.le_refl.
    now rewrite Nat.sub_diag. }
  intros ->. reflexivity.
Qed.

(** X23. When useradd is found, [userAdd] runs it with --create-home
    and the username, and with --groups and the comma-joined list exactly
    when the list is not empty; for the list that [createTemporaryUser]
    passes, the requested groups followed by the marker group, --groups is
    always there and the joined string ends with the marker group. *)
Theorem unixMgmt_userAdd_command (username : string) (groups : list string)
    (w : W) (useraddBin : string) :
  os_exec_LookPath "useradd" w = (useraddBin, None) ->
  exists args,
    unixMgmt_userAdd os_exec_LookPath os_exec_Run username groups w
    = os_exec_Run useraddBin args w /\
    firstn 2 args = ["--create-home"; username] /\
    (groups = [] -> skipn 2 args = []) /\
    (groups <> [] -> skipn 2 args = ["--groups"; String.concat "," groups]) /\
    (forall requested, groups = requested ++ [TeleportServiceGroup] ->
       exists pre,
         skipn 2 args = ["--groups"; (pre ++ TeleportServiceGroup)%string]).
Proof.
  intros HP. exists (unixMgmt_userAdd_args username groups).
  unfold unixMgmt_userAdd. rewrite HP.
  split; [reflexivity|].
  unfold unixMgmt_userAdd_args.
  destruct groups as [|g rest].
  - simpl. repeat split; try reflexivity.
    + intros H. contradiction.
    + intros [|x xs] H; discriminate.
  - cbn [length Nat.eqb negb app firstn skipn].
    repeat split; try reflexivity.
    + intros H. discriminate.
    + intros requested Hreq. rewrite Hreq.
      destruct (concat_ends_with_last "," requested TeleportServiceGroup)
        as (pre & Hpre).
      exists pre. now rewrite Hpre.
Qed.

End UnixMgmtCommands.

(** ** The further properties on concrete hosts *)

Section MoreOnUnixHosts.

Import Unix.

(** X1 on a host: bob has no account. *)
Lemma deleteUserInGroup_lookup_error_witness :
  let r := deleteUserInGroup GroupIds unixMgmt "bob" "2000" fresh_host in
  result r = Returned (Some (TraceWrap (UnknownUserError "bob") [])) /\
  world r = fresh_host /\
  calls r = [CallLookup "bob"] /\
  no_userDel (calls r).
Proof.
  apply (deleteUserInGroup_lookup_error Host GroupIds unixMgmt "bob" "2000"
           fresh_host None (UnknownUserError "bob")).
  reflexivity.
Defined.

(** X2 on a host where the group database cannot be read. *)
Lemma deleteUserInGroup_GroupIds_error_witness :
  let ids := fun (_ : User) (_ : Host) =>
               (["2000"], Some (OtherError "cannot read the group database")) in
  let r := deleteUserInGroup ids unixMgmt "alice" "2000" fresh_host in
  result r
  = Returned (Some (TraceWrap (OtherError "cannot read the group database") [])) /\
  world r = fresh_host /\
  calls r = [CallLookup "alice"; CallGroupIds alice] /\
  no_userDel (calls r).
Proof.
  intros ids.
  apply (deleteUserInGroup_GroupIds_error Host ids unixMgmt "alice" "2000"
           fresh_host alice ["2000"]
           (OtherError "cannot read the group database")).
  - reflexivity.
  - reflexivity.
Defined.

(** X4 on a host: the home directory of svc2 cannot be removed. *)
Lemma deleteUserInGroup_result_of_userDel_witness :
  let h := managed_host [] ["svc2"] in
  let r := deleteUserInGroup GroupIds unixMgmt "svc2" "2000" h in
  world r = snd (userDel unixMgmt "svc2" h) /\
  count_userDel (calls r) = 1 /\
  result r = Returned (Some (TraceWrap (ExitError 12) [])).
Proof.
  intros h.
  destruct (deleteUserInGroup_result_of_userDel Host GroupIds unixMgmt
              "svc2" "2000" h (snd (userDel unixMgmt "svc2" h))
              (svc "svc2" "2002") ["2002"; "2000"] 12
              (Some (ExitError 12)))
    as (Hw & Hc & _ & Hr).
  - reflexivity.
  - reflexivity.
  - simpl. auto.
  - reflexivity.
  - split; [exact Hw|]. split; [exact Hc|]. apply Hr. discriminate.
Defined.

(** X5 on a host with an empty password file. *)
Lemma DeleteAllTeleportSystemUsers_enumeration_error_witness :
  let r := DeleteAllTeleportSystemUsers GroupIds (StubOS.methods 0)
             StubOS.empty_host in
  result r
  = Returned (Some (TraceNotFound "failed to find any /etc/passwd entries")) /\
  world r = StubOS.empty_host /\
  calls r = [CallGetAllUsers] /\
  no_mutation (calls r).
Proof.
  apply (DeleteAllTeleportSystemUsers_enumeration_error Host GroupIds
           (StubOS.methods 0) StubOS.empty_host []
           (TraceNotFound "failed to find any /etc/passwd entries")).
  reflexivity.
Defined.

(** X6 on a host without the marker group. *)
Lemma DeleteAllTeleportSystemUsers_marker_group_error_witness :
  let r := DeleteAllTeleportSystemUsers GroupIds unixMgmt fresh_host in
  result r
  = Returned (Some (TraceWrap (UnknownGroupError TeleportServiceGroup) [])) /\
  world r = fresh_host /\
  calls r = [CallGetAllUsers; CallLookupGroup TeleportServiceGroup] /\
  no_mutation (calls r).
Proof.
  apply (DeleteAllTeleportSystemUsers_marker_group_error Host GroupIds
           unixMgmt fresh_host ["root"; "alice"] None
           (UnknownGroupError TeleportServiceGroup)).
  - reflexivity.
  - reflexivity.
Defined.

(** X7 on a backend whose enumeration is empty. *)
Lemma DeleteAllTeleportSystemUsers_no_accounts_witness :
  let r := DeleteAllTeleportSystemUsers GroupIds StubOS.unreadable
             (managed_host [] []) in
  result r = Returned None /\
  world r = managed_host [] [] /\
  calls r = [CallGetAllUsers; CallLookupGroup TeleportServiceGroup].
Proof.
  apply (DeleteAllTeleportSystemUsers_no_accounts Host GroupIds
           StubOS.unreadable (managed_host [] [])
           (Some (mkGroup "2000" TeleportServiceGroup))).
  - reflexivity.
  - reflexivity.
Defined.

(** X9 on a host where nobody is in the marker group. *)
Lemma DeleteAllTeleportSystemUsers_unmanaged_host_untouched_witness :
  let r := DeleteAllTeleportSystemUsers GroupIds unixMgmt
             StubOS.unmanaged_host in
  result r = Returned None /\
  world r = StubOS.unmanaged_host /\
  no_mutation (calls r).
Proof.
  apply (DeleteAllTeleportSystemUsers_unmanaged_host_untouched Host GroupIds
           unixMgmt StubOS.unmanaged_host ["root"; "alice"]
           (mkGroup "2000" TeleportServiceGroup)).
  - reflexivity.
  - reflexivity.
  - intros u [<-|[<-|[]]].
    + exists root, ["0"]. repeat split.
      simpl. intros [H|[]]. discriminate.
    + exists alice, ["1000"; "50"]. repeat split.
      simpl. intros [H|[H|[]]]; discriminate.
Defined.

(** X10 on a host: svc1 is deleted when its handle is closed. *)
Lemma Close_managed_account_witness :
  let h := managed_host [] [] in
  let r := Close GroupIds (mkUserCloser unixMgmt "svc1") h in
  world r = snd (userDel unixMgmt "svc1" h) /\
  count_userDel (calls r) = 1 /\
  result r = Returned None /\
  Lookup unixMgmt "svc1" (world r) = (None, Some (UnknownUserError "svc1")).
Proof.
  intros h.
  destruct (Close_managed_account Host GroupIds (mkUserCloser unixMgmt "svc1")
              h (snd (userDel unixMgmt "svc1" h))
              (mkGroup "2000" TeleportServiceGroup) (svc "svc1" "2001")
              ["2001"; "2000"] 0 None)
    as (Hw & Hc & Hr).
  - reflexivity.
  - reflexivity.
  - reflexivity.
  - simpl. auto.
  - reflexivity.
  - split; [exact Hw|]. split; [exact Hc|]. split.
    + apply Hr. now right.
    + cbv zeta in Hw. rewrite Hw. reflexivity.
Defined.

(** X11 on a host: alice was there before and is not in the marker
    group. *)
Lemma Close_of_existing_unmanaged_account_witness :
  exists closer,
    createTemporaryUser unixMgmt "alice" ["docker"] StubOS.unmanaged_host
    = Run (Returned (Some closer, [],
                     Some (TraceAlreadyExists "User already exists")))
          StubOS.unmanaged_host [CallLookup "alice"] /\
    let r := Close GroupIds closer StubOS.unmanaged_host in
    result r = Returned None /\
    world r = StubOS.unmanaged_host /\
    no_mutation (calls r).
Proof.
  apply (Close_of_existing_unmanaged_account Host GroupIds unixMgmt "alice"
           ["docker"] StubOS.unmanaged_host alice
           (mkGroup "2000" TeleportServiceGroup) ["1000"; "50"]).
  - reflexivity.
  - reflexivity.
  - reflexivity.
  - simpl. intros [H|[H|[]]]; discriminate.
Defined.

(** X12 on a host: the account of the handle is gone. *)
Lemma Close_account_gone_witness :
  let h := managed_host [] [] in
  let r := Close GroupIds (mkUserCloser unixMgmt "svc9") h in
  result r
  = Returned (Some (TraceWrap (TraceWrap (UnknownUserError "svc9") []) [])) /\
  world r = h /\
  calls r = [CallLookupGroup TeleportServiceGroup; CallLookup "svc9"] /\
  no_mutation (calls r).
Proof.
  apply (Close_account_gone Host GroupIds (mkUserCloser unixMgmt "svc9")
           (managed_host [] []) (mkGroup "2000" TeleportServiceGroup) None
           (UnknownUserError "svc9")).
  - reflexivity.
  - reflexivity.
Defined.

(** X13 on a host: docker does not exist and groupadd(8) creates it. *)
Lemma createGroupIfNotExist_result_of_groupAdd_witness :
  let r := createGroupIfNotExist unixMgmt "docker" fresh_host in
  world r = snd (groupAdd unixMgmt "docker" fresh_host) /\
  result r = Returned None.
Proof.
  destruct (createGroupIfNotExist_result_of_groupAdd Host unixMgmt "docker"
              fresh_host (snd (groupAdd unixMgmt "docker" fresh_host))
              None (Some (UnknownGroupError "docker")) None 0)
    as (Hw & Hr & _).
  - reflexivity.
  - now right.
  - reflexivity.
  - split; [exact Hw|]. apply Hr. now right.
Defined.

(** X14 on a backend whose account lookup fails. *)
Lemma createTemporaryUser_lookup_error_witness :
  let r := createTemporaryUser StubOS.unreadable "svc1" ["docker"]
             fresh_host in
  result r
  = Returned (None, [], Some (TraceWrap (OtherError "input/output error") [])) /\
  world r = fresh_host /\
  calls r = [CallLookup "svc1"].
Proof.
  apply (createTemporaryUser_lookup_error Host StubOS.unreadable "svc1"
           ["docker"] fresh_host None (OtherError "input/output error")).
  - reflexivity.
  - discriminate.
Defined.

End MoreOnUnixHosts.

Section MoreOnStubHosts.

Import Unix.

(** X18 on a host without the commands: svc1 is in the marker group. *)
Lemma deleteUserInGroup_unix_userdel_missing_witness :
  let h := StubOS.managed_host_with [] in
  let r := deleteUserInGroup GroupIds (StubOS.methods 0) "svc1" "2000" h in
  result r
  = Returned (Some (TraceWrap (TraceWrap (ErrNotFound "userdel")
                                 ["cant find userdel binary"]) [])) /\
  world r = h.
Proof.
  apply (deleteUserInGroup_unix_userdel_missing Host GroupIds user_Lookup
           user_LookupGroup StubOS.names StubOS.LookPath (StubOS.Run 0)
           "svc1" "2000" (StubOS.managed_host_with []) (svc "svc1" "2001")
           ["2001"; "2000"] "" (ErrNotFound "userdel")).
  - reflexivity.
  - reflexivity.
  - simpl. auto.
  - reflexivity.
Defined.

(** X19 on a host without the commands: staff exists. *)
Lemma createGroupIfNotExist_unix_groupadd_missing_witness :
  let r := createGroupIfNotExist (StubOS.methods 0) "staff" bare_host in
  result r
  = Returned (Some (TraceWrap (TraceWrap (ErrNotFound "groupadd")
                                 ["cant find groupadd binary"]) [])) /\
  world r = bare_host.
Proof.
  apply (createGroupIfNotExist_unix_groupadd_missing Host user_Lookup
           user_LookupGroup StubOS.names StubOS.LookPath (StubOS.Run 0)
           "staff" bare_host (mkGroup "50" "staff") ""
           (ErrNotFound "groupadd")).
  - reflexivity.
  - reflexivity.
Defined.

(** X20 on a host without the commands. *)
Lemma createTemporaryUser_unix_groupadd_missing_witness :
  exists errs,
    length errs = 2 /\
    let r := createTemporaryUser (StubOS.methods 0) "svc1" ["docker"]
               bare_host in
    result r
    = Returned (None, [],
                Some (TraceWrapWithMessage (TraceAggregate errs)
                        "error while creating groups")) /\
    world r = bare_host /\
    no_userAdd (calls r).
Proof.
  apply (createTemporaryUser_unix_groupadd_missing Host user_Lookup
           user_LookupGroup StubOS.names StubOS.LookPath (StubOS.Run 0)
           "svc1" ["docker"] bare_host (Some (UnknownUserError "svc1")) ""
           (ErrNotFound "groupadd")).
  - reflexivity.
  - now right.
  - reflexivity.
Defined.

(** X21 on a host with groupadd only. *)
Lemma createTemporaryUser_unix_useradd_missing_witness :
  let h := StubOS.managed_host_with ["groupadd"] in
  let r := createTemporaryUser (StubOS.methods 0) "svc7" ["docker"] h in
  result r
  = Returned (None, ["docker"; TeleportServiceGroup],
              Some (TraceWrapWithMessage
                      (TraceWrap (ErrNotFound "useradd")
                         ["cant find useradd binary"])
                      "error while creating user")) /\
  world r = h.
Proof.
  eapply (createTemporaryUser_unix_useradd_missing Host user_Lookup
            user_LookupGroup StubOS.names StubOS.LookPath (StubOS.Run 0)
            "svc7" ["docker"] (StubOS.managed_host_with ["groupadd"])
            (StubOS.managed_host_with ["groupadd"])
            (Some (UnknownUserError "svc7")) [None; None]).
  - reflexivity.
  - now right.
  - eapply bootstraps_cons; [reflexivity|].
    eapply bootstraps_cons; [reflexivity|].
    apply bootstraps_nil.
  - reflexivity.
  - reflexivity.
Defined.

(** X22 on a host with usermod. *)
Lemma unixMgmt_addUserToGroups_command_witness :
  exists args,
    unixMgmt_addUserToGroups StubOS.LookPath (StubOS.Run 0) "svc1"
      ["docker"; "staff"] (mkHost ["usermod"] [] [] [] [] 0)
    = StubOS.Run 0 "/usr/sbin/usermod" args (mkHost ["usermod"] [] [] [] [] 0) /\
    length args = 4 /\
    nth_error args 0 = Some "-aG" /\
    (forall i g, nth_error ["docker"; "staff"] i = Some g ->
                 nth_error args (S i) = Some g) /\
    nth_error args 3 = Some "svc1" /\
    (["docker"; "staff"] = [] -> args = ["-aG"; "svc1"]).
Proof.
  apply (unixMgmt_addUserToGroups_command Host StubOS.LookPath (StubOS.Run 0)
           "svc1" ["docker"; "staff"]
           (mkHost ["usermod"] [] [] [] [] 0) "/usr/sbin/usermod").
  reflexivity.
Defined.

(** X23 on a host with the commands: the groups that
    [createTemporaryUser] passes for docker. *)
Lemma unixMgmt_userAdd_command_witness :
  exists args,
    unixMgmt_userAdd StubOS.LookPath (StubOS.Run 0) "svc1"
      ["docker"; TeleportServiceGroup] fresh_host
    = StubOS.Run 0 "/usr/sbin/useradd" args fresh_host /\
    args = ["--create-home"; "svc1"; "--groups"; "docker,teleport-system"].
Proof.
  destruct (unixMgmt_userAdd_command Host StubOS.LookPath (StubOS.Run 0)
              "svc1" ["docker"; TeleportServiceGroup] fresh_host
              "/usr/sbin/useradd" eq_refl)
    as (args & Hrun & Hhead & _ & Htail & _).
  exists args. split; [exact Hrun|].
  rewrite <- (firstn_skipn 2 args), Hhead, Htail; [reflexivity|discriminate].
Defined.

End MoreOnStubHosts.
